(** * Deployment monitor: a shallow embedding of [scripts/monitor_deployment.py]

    The development follows the class [DeploymentMonitor]: the values the
    script handles (numbers, the JSON verdict of the classifier, the
    exceptions it catches), the calls it makes to the outside world
    (CloudWatch, the chat completion API, the Slack webhook, ECS) recorded
    as a trace of events, and its methods in the order of the source.

    Numbers are rationals: every finite Python float is a rational, and the
    script only compares, subtracts, divides and formats them.  Calls to the
    outside world are answered by a [World] record, one per iteration of the
    monitoring loop.  The operator's interrupt ([KeyboardInterrupt]) is
    taken to arrive while the loop sleeps, where it spends its time. *)

From Stdlib Require Import QArith Qminmax Lqa.
From stdpp Require Import gmap strings list pretty.

Set Warnings "-register-all".



(** ** Python values *)

(** What [json.loads] can return.  An object is a Python [dict] with string
    keys; a number is a rational (the NaN and the infinities that
    [json.loads] also accepts are left out). *)
Inductive json : Type :=
  | JNull
  | JBool (b : bool)
  | JNum (q : Q)
  | JStr (s : string)
  | JArr (l : list json)
  | JObj (d : gmap string json).

(** The exceptions that occur in the script.  [Failure msg] is an exception
    raised by a library call to the outside world, with its text. *)
Inductive exn : Type :=
  | KeyboardInterrupt
  | AttributeError
  | TypeError
  | ZeroDivisionError
  | IndexError
  | Failure (msg : string).

(** [except Exception] catches everything but [KeyboardInterrupt]. *)
Definition is_Exception (e : exn) : bool :=
  match e with
  | KeyboardInterrupt => false
  | _ => true
  end.

(** [x > y] on numbers. *)
Definition Qgt_bool (x y : Q) : bool := negb (Qle_bool x y).

(** Python truth value testing: [None], [False], zero, and the empty string,
    list and dict are false, everything else is true. *)
Definition py_truthy (v : json) : bool :=
  match v with
  | JNull => false
  | JBool b => b
  | JNum q => negb (Qeq_bool q 0)
  | JStr s => negb (String.eqb s "")
  | JArr l => match l with [] => false | _ => true end
  | JObj d => match map_to_list d with [] => false | _ => true end
  end.

(** [d.get(key, default)] on a dict. *)
Definition dict_get (d : gmap string json) (key : string) (default : json) : json :=
  match d !! key with
  | Some v => v
  | None => default
  end.

(** [v == s] for a string literal [s]: only a string equals a string. *)
Definition py_eq_str (v : json) (s : string) : bool :=
  match v with
  | JStr s' => String.eqb s' s
  | _ => false
  end.

Definition is_JStr (v : json) : bool :=
  match v with
  | JStr _ => true
  | _ => false
  end.

(** Whether [', '.join(v)] returns: [v] has to be iterable and yield strings
    only.  A string yields its characters and a dict its keys; [None], a
    boolean and a number are not iterable. *)
Definition py_joinable (v : json) : bool :=
  match v with
  | JStr _ => true
  | JArr l => forallb is_JStr l
  | JObj _ => true
  | _ => false
  end.

(** Whether a value can be used as a dict key: lists and dicts are
    unhashable. *)
Definition py_hashable (v : json) : bool :=
  match v with
  | JArr _ | JObj _ => false
  | _ => true
  end.

(** [max(x, 1)]: Python keeps the first argument unless a later one is
    strictly greater. *)
Definition py_max (x y : Q) : Q := if Qgt_bool y x then y else x.

(** ** Formatting with [:.1f]

    The value is rounded to the nearest tenth, ties to even, and printed
    with one digit after the point. *)
Definition round_half_even (n : Z) (d : Z) : Z :=
  let f := (n / d)%Z in
  let r := (n mod d)%Z in
  match (2 * r ?= d)%Z with
  | Lt => f
  | Gt => (f + 1)%Z
  | Eq => if Z.even f then f else (f + 1)%Z
  end.

Definition fmt_1f (q : Q) : string :=
  let tenths := round_half_even (10 * Z.abs (Qnum q)) (Z.pos (Qden q)) in
  (if (Qnum q <? 0)%Z then "-" else "")
    +:+ pretty (tenths / 10)%Z +:+ "." +:+ pretty (tenths mod 10)%Z.

(** ** Data of the monitor *)

(** [self.thresholds]: a dict with these five keys, set in [__init__]. *)
Record Thresholds : Type := {
  t_error_rate : Q;
  t_cpu_usage : Q;
  t_memory_usage : Q;
  t_response_time : Q;
  t_latency : Q
}.

(** The dict returned by [get_baseline_metrics]. *)
Record Baseline : Type := {
  b_error_rate : Q;
  b_cpu_usage : Q
}.

(** The dict returned by [get_current_metrics]. *)
Record Metrics : Type := {
  m_error_rate : Q;
  m_avg_latency : Q;
  m_cpu_usage : Q;
  m_memory_usage : Q;
  m_timestamp : string
}.

(** The attributes of a [DeploymentMonitor] object (the three boto3 clients
    are the outside world). *)
Record DeploymentMonitor : Type := {
  openai_api_key : string;
  slack_webhook_url : option string;
  thresholds : Thresholds;
  baseline_metrics : Baseline
}.

(** The literal of lines 24-30. *)
Definition default_thresholds : Thresholds :=
  {| t_error_rate := 5; t_cpu_usage := 80; t_memory_usage := 85;
     t_response_time := 2000; t_latency := 1000 |}.

(** ** [check_thresholds] (lines 191-207) *)

Definition check_thresholds (self : DeploymentMonitor) (metrics : Metrics)
  : list string :=
  let alerts := [] in
  let alerts :=
    if Qgt_bool (m_error_rate metrics) (t_error_rate (thresholds self))
    then alerts ++ ["High error rate: " +:+ fmt_1f (m_error_rate metrics) +:+ "%"]
    else alerts in
  let alerts :=
    if Qgt_bool (m_cpu_usage metrics) (t_cpu_usage (thresholds self))
    then alerts ++ ["High CPU usage: " +:+ fmt_1f (m_cpu_usage metrics) +:+ "%"]
    else alerts in
  let alerts :=
    if Qgt_bool (m_memory_usage metrics) (t_memory_usage (thresholds self))
    then alerts ++ ["High memory usage: " +:+ fmt_1f (m_memory_usage metrics) +:+ "%"]
    else alerts in
  let alerts :=
    if Qgt_bool (m_avg_latency metrics) (t_response_time (thresholds self))
    then alerts ++ ["High response time: " +:+ fmt_1f (m_avg_latency metrics) +:+ "ms"]
    else alerts in
  alerts.

(** ** The outside world and the trace of calls *)

(** The request sent to the chat completion API: the values that the prompt
    of lines 142-177 interpolates, in the order of the text. *)
Record Prompt : Type := {
  p_error_rate : Q;
  p_error_change : Q;
  p_cpu_usage : Q;
  p_cpu_change : Q;
  p_memory_usage : Q;
  p_avg_latency : Q;
  p_baseline_error_rate : Q;
  p_baseline_cpu_usage : Q;
  p_threshold_error_rate : Q;
  p_threshold_cpu_usage : Q;
  p_threshold_memory_usage : Q;
  p_threshold_response_time : Q
}.

(** The messages handed to [send_alert], kept as the data their f-strings
    interpolate. *)
Inductive message : Type :=
  | MsgThreshold (threshold_alerts : list string)
      (* "Threshold exceeded:\n" + "\n".join(threshold_alerts) *)
  | MsgAnomaly (severity causes recommendations rollback_recommended : json)
      (* the text of lines 297-303 *)
  | MsgInitiatingRollback
      (* "CRITICAL ANOMALY DETECTED - Initiating automatic rollback" *)
  | MsgRollbackCompleted
      (* "Rollback completed successfully" *)
  | MsgRollbackFailed.
      (* "Rollback failed - Manual intervention required" *)

(** The values of [emoji_map] (line 215-220), named by their key. *)
Inductive emoji : Type :=
  | EmojiInfo
  | EmojiWarning
  | EmojiError
  | EmojiCritical.

(** The lines the script prints, one constructor per [print]. *)
Inductive log_line : Type :=
  | LogBaselineError (e : exn)        (* line 68 *)
  | LogMetricsError (e : exn)         (* line 129 *)
  | LogAIError (e : exn)              (* line 188 *)
  | LogAlert (msg : message)          (* line 212 *)
  | LogSlackError (e : exn)           (* line 234 *)
  | LogNoPreviousVersion              (* line 247 *)
  | LogRollbackInitiated (task_definition : string)   (* line 259 *)
  | LogRollbackError (e : exn)        (* line 263 *)
  | LogStarting (duration_minutes : Z)   (* line 268 *)
  | LogStatus (utcnow error_rate cpu_usage memory_usage : string)   (* line 281 *)
  | LogStoppedByUser                  (* line 319 *)
  | LogLoopError (e : exn)            (* line 322 *)
  | LogCompleted.                     (* line 325 *)

(** What the script does to the outside world, in order. *)
Inductive event : Type :=
  | EvCloudWatch (metric_name : string)   (* cloudwatch.get_metric_statistics *)
  | EvOpenAI (p : Prompt)                 (* openai.ChatCompletion.create *)
  | EvSlackPost (marker : emoji) (msg : message)   (* requests.post *)
  | EvListTaskDefinitions                 (* ecs.list_task_definitions *)
  | EvUpdateService (task_definition : string)   (* ecs.update_service *)
  | EvSleep                               (* time.sleep(60) *)
  | EvPrint (line : log_line).            (* print *)

(** The answer of a [get_metric_statistics] call: it raises, or returns the
    values of the requested statistic in ['Datapoints']. *)
Inductive cw_response : Type :=
  | CwRaise (msg : string)
  | CwDatapoints (values : list Q).

(** The outcome of lines 180-186: the call or [json.loads] raises, or the
    answer parses to a JSON value. *)
Inductive ai_response : Type :=
  | AiRaise (msg : string)
  | AiJson (v : json).

(** The answer of [list_task_definitions]: it raises, or returns
    ['taskDefinitionArns'], sorted [DESC]. *)
Inductive ecs_list_response : Type :=
  | EcsRaise (msg : string)
  | EcsArns (taskDefinitionArns : list string).

(** The answers the outside world gives during one iteration of the loop. *)
Record World : Type := {
  w_utcnow_iso : string;       (* end_time.isoformat(), line 126 *)
  w_utcnow_str : string;       (* datetime.utcnow(), line 281 *)
  w_5xx_count : cw_response;
  w_response_time : cw_response;
  w_cpu : cw_response;
  w_memory : cw_response;
  w_openai : ai_response;
  w_slack : message -> option string;   (* [Some msg]: the post raises *)
  w_ecs_list : ecs_list_response;
  w_ecs_update : string -> option string;   (* [Some msg]: the call raises *)
  w_interrupt : bool           (* Ctrl-C arrives during the sleep *)
}.

(** ** Computations: a trace of events and a value or a raised exception *)

Inductive result (A : Type) : Type :=
  | Ok (a : A)
  | Raise (e : exn).
Arguments Ok {A} a.
Arguments Raise {A} e.

Definition M (A : Type) : Type := list event * result A.

Definition ret {A} (a : A) : M A := ([], Ok a).

Definition bind {A B} (m : M A) (f : A -> M B) : M B :=
  match m with
  | (t, Ok a) => let '(t', r) := f a in (t ++ t', r)
  | (t, Raise e) => (t, Raise e)
  end.

Definition emit (ev : event) : M unit := ([ev], Ok tt).

Definition raise {A} (e : exn) : M A := ([], Raise e).

(** [try: m except Exception as e: handler e]. *)
Definition try_except {A} (m : M A) (handler : exn -> M A) : M A :=
  match m with
  | (t, Ok a) => (t, Ok a)
  | (t, Raise e) =>
      if is_Exception e
      then let '(t', r) := handler e in (t ++ t', r)
      else (t, Raise e)
  end.

Notation "x <- m ;; k" := (bind m (fun x => k))
  (at level 100, m at next level, right associativity).
Notation "m ;;; k" := (bind m (fun _ => k))
  (at level 100, right associativity).

Definition trace {A} (m : M A) : list event := fst m.
Definition outcome {A} (m : M A) : result A := snd m.

(** [print(...)]. *)
Definition print (l : log_line) : M unit := emit (EvPrint l).

(** [time.sleep(60)], during which the operator may interrupt.  This is the
    one place where the model lets [KeyboardInterrupt] arrive; line 318
    catches it from every statement of the [try] body, so an interrupt
    during a call to CloudWatch, the classifier, the webhook or ECS, which
    also ends the loop there, is outside the model.  What is stated of an
    iteration as a whole is stated for iterations without interrupt. *)
Definition sleep (w : World) : M unit :=
  emit EvSleep ;;;
  if w_interrupt w then raise KeyboardInterrupt else ret tt.

(** [self.cloudwatch.get_metric_statistics(MetricName=name, ...)]. *)
Definition get_metric_statistics (name : string) (r : cw_response)
  : M (list Q) :=
  emit (EvCloudWatch name) ;;;
  match r with
  | CwRaise msg => raise (Failure msg)
  | CwDatapoints values => ret values
  end.

(** [resp['Datapoints'][-1][stat] if resp['Datapoints'] else 0]. *)
Definition last_or_zero (datapoints : list Q) : Q :=
  match last datapoints with
  | Some v => v
  | None => 0
  end.

(** ** [get_baseline_metrics] (lines 35-69) *)

Definition get_baseline_metrics (error_answer cpu_answer : cw_response)
  : M Baseline :=
  try_except
    (error_response <- get_metric_statistics "HTTPCode_Target_5XX_Count" error_answer ;;
     cpu_response <- get_metric_statistics "CPUUtilization" cpu_answer ;;
     ret {| b_error_rate := last_or_zero error_response;
            b_cpu_usage := last_or_zero cpu_response |})
    (fun e =>
       print (LogBaselineError e) ;;;
       ret {| b_error_rate := 0; b_cpu_usage := 0 |}).

(** ** [__init__] (lines 16-33) *)

Definition init (openai_api_key : string) (slack_webhook_url : option string)
    (error_answer cpu_answer : cw_response) : M DeploymentMonitor :=
  baseline <- get_baseline_metrics error_answer cpu_answer ;;
  ret {| openai_api_key := openai_api_key;
         slack_webhook_url := slack_webhook_url;
         thresholds := default_thresholds;
         baseline_metrics := baseline |}.

(** ** [get_current_metrics] (lines 71-130) *)

Definition get_current_metrics (w : World) : M (option Metrics) :=
  try_except
    (error_response <- get_metric_statistics "HTTPCode_Target_5XX_Count" (w_5xx_count w) ;;
     latency_response <- get_metric_statistics "TargetResponseTime" (w_response_time w) ;;
     cpu_response <- get_metric_statistics "CPUUtilization" (w_cpu w) ;;
     memory_response <- get_metric_statistics "MemoryUtilization" (w_memory w) ;;
     ret (Some {| m_error_rate := last_or_zero error_response;
                  m_avg_latency := last_or_zero latency_response;
                  m_cpu_usage := last_or_zero cpu_response;
                  m_memory_usage := last_or_zero memory_response;
                  m_timestamp := w_utcnow_iso w |}))
    (fun e =>
       print (LogMetricsError e) ;;;
       ret None).

(** ** [detect_anomalies] (lines 132-189) *)

(** [a / b] on numbers. *)
Definition py_truediv (a b : Q) : M Q :=
  if Qeq_bool b 0 then raise ZeroDivisionError else ret (a / b)%Q.

(** Lines 138-139. *)
Definition error_change (self : DeploymentMonitor) (current_metrics : Metrics)
  : M Q :=
  ratio <- py_truediv
             (m_error_rate current_metrics - b_error_rate (baseline_metrics self))%Q
             (py_max (b_error_rate (baseline_metrics self)) 1) ;;
  ret (ratio * 100)%Q.

(** Line 140. *)
Definition cpu_change (self : DeploymentMonitor) (current_metrics : Metrics) : Q :=
  (m_cpu_usage current_metrics - b_cpu_usage (baseline_metrics self))%Q.

Definition detect_anomalies (self : DeploymentMonitor)
    (current_metrics : option Metrics) (w : World) : M (option json) :=
  match current_metrics with
  | None => ret None
  | Some current_metrics =>
      error_change <- error_change self current_metrics ;;
      let cpu_change := cpu_change self current_metrics in
      let prompt :=
        {| p_error_rate := m_error_rate current_metrics;
           p_error_change := error_change;
           p_cpu_usage := m_cpu_usage current_metrics;
           p_cpu_change := cpu_change;
           p_memory_usage := m_memory_usage current_metrics;
           p_avg_latency := m_avg_latency current_metrics;
           p_baseline_error_rate := b_error_rate (baseline_metrics self);
           p_baseline_cpu_usage := b_cpu_usage (baseline_metrics self);
           p_threshold_error_rate := t_error_rate (thresholds self);
           p_threshold_cpu_usage := t_cpu_usage (thresholds self);
           p_threshold_memory_usage := t_memory_usage (thresholds self);
           p_threshold_response_time := t_response_time (thresholds self) |} in
      try_except
        (emit (EvOpenAI prompt) ;;;
         match w_openai w with
         | AiRaise msg => raise (Failure msg)
         | AiJson v => ret (Some v)
         end)
        (fun e =>
           print (LogAIError e) ;;;
           ret None)
  end.

(** ** [send_alert] (lines 209-234) *)

(** [not self.slack_webhook_url]: [None] and the empty string are false. *)
Definition webhook_configured (self : DeploymentMonitor) : bool :=
  match slack_webhook_url self with
  | Some url => negb (String.eqb url "")
  | None => false
  end.

(** [emoji_map.get(severity, <INFO marker>)] for a hashable [severity]. *)
Definition emoji_map_get (severity : json) : emoji :=
  if py_eq_str severity "INFO" then EmojiInfo
  else if py_eq_str severity "WARNING" then EmojiWarning
  else if py_eq_str severity "ERROR" then EmojiError
  else if py_eq_str severity "CRITICAL" then EmojiCritical
  else EmojiInfo.

Definition send_alert (self : DeploymentMonitor) (w : World)
    (msg : message) (severity : json) : M unit :=
  if negb (webhook_configured self) then
    print (LogAlert msg)
  else
    marker <- (if py_hashable severity
               then ret (emoji_map_get severity)
               else raise TypeError) ;;
    try_except
      (emit (EvSlackPost marker msg) ;;;
       match w_slack w msg with
       | Some err => raise (Failure err)
       | None => ret tt
       end)
      (fun e => print (LogSlackError e)).

(** ** [rollback_deployment] (lines 236-264) *)

Definition rollback_deployment (w : World) : M bool :=
  try_except
    (emit EvListTaskDefinitions ;;;
     task_definitions <- match w_ecs_list w with
                         | EcsRaise msg => raise (Failure msg)
                         | EcsArns arns => ret arns
                         end ;;
     if (length task_definitions <? 2)%nat then
       print LogNoPreviousVersion ;;;
       ret false
     else
       previous_task_def <- match task_definitions !! 1%nat with
                            | Some arn => ret arn
                            | None => raise IndexError
                            end ;;
       emit (EvUpdateService previous_task_def) ;;;
       match w_ecs_update w previous_task_def with
       | Some err => raise (Failure err)
       | None => ret tt
       end ;;;
       print (LogRollbackInitiated previous_task_def) ;;;
       ret true)
    (fun e =>
       print (LogRollbackError e) ;;;
       ret false).

(** ** [monitor] (lines 266-325) *)

(** How an iteration of the [while] loop ends: the loop goes on to its next
    test, or it is left by [break]. *)
Inductive flow : Type :=
  | Next
  | Break.

(** [v.get(key, default)]: only a dict has the method. *)
Definition py_get (v : json) (key : string) (default : json) : M json :=
  match v with
  | JObj d => ret (dict_get d key default)
  | _ => raise AttributeError
  end.

(** [', '.join(v)], for its exception only (the text goes into the
    message). *)
Definition py_join (v : json) : M unit :=
  if py_joinable v then ret tt else raise TypeError.

(** Lines 309-314: the automatic rollback, which ends with [break]. *)
Definition rollback_step (self : DeploymentMonitor) (w : World) : M flow :=
  send_alert self w MsgInitiatingRollback (JStr "CRITICAL") ;;;
  rolled_back <- rollback_deployment w ;;
  (if rolled_back
   then send_alert self w MsgRollbackCompleted (JStr "INFO")
   else send_alert self w MsgRollbackFailed (JStr "CRITICAL")) ;;;
  ret Break.

(** Lines 292-314: the body of [if anomaly_analysis and ...]. *)
Definition anomaly_block (self : DeploymentMonitor) (w : World)
    (anomaly_analysis : json) : M flow :=
  severity <- py_get anomaly_analysis "severity" (JStr "MEDIUM") ;;
  causes <- py_get anomaly_analysis "causes" (JArr []) ;;
  recommendations <- py_get anomaly_analysis "recommendations" (JArr []) ;;
  rollback_recommended <-
    py_get anomaly_analysis "rollback_recommended" (JBool false) ;;
  py_join causes ;;;
  py_join recommendations ;;;
  send_alert self w
    (MsgAnomaly severity causes recommendations rollback_recommended)
    severity ;;;
  if py_eq_str severity "CRITICAL" && py_truthy rollback_recommended then
    rollback_step self w
  else
    ret Next.

(** Lines 291: [anomaly_analysis and anomaly_analysis.get('anomaly_detected')]
    as a condition. *)
Definition anomaly_detected (anomaly_analysis : option json) : M bool :=
  match anomaly_analysis with
  | None => ret false
  | Some v =>
      if py_truthy v then
        detected <- py_get v "anomaly_detected" JNull ;;
        ret (py_truthy detected)
      else ret false
  end.

(** Lines 275-316: the body of the [try]. *)
Definition loop_body (self : DeploymentMonitor) (w : World) : M flow :=
  metrics <- get_current_metrics w ;;
  match metrics with
  | None =>
      sleep w ;;;
      ret Next
  | Some metrics =>
      print (LogStatus (w_utcnow_str w) (fmt_1f (m_error_rate metrics))
               (fmt_1f (m_cpu_usage metrics)) (fmt_1f (m_memory_usage metrics))) ;;;
      let threshold_alerts := check_thresholds self metrics in
      match threshold_alerts with
      | [] => ret tt
      | _ => send_alert self w (MsgThreshold threshold_alerts) (JStr "WARNING")
      end ;;;
      anomaly_analysis <- detect_anomalies self (Some metrics) w ;;
      detected <- anomaly_detected anomaly_analysis ;;
      after <- match anomaly_analysis with
               | Some v => if detected then anomaly_block self w v else ret Next
               | None => ret Next
               end ;;
      match after with
      | Break => ret Break
      | Next =>
          sleep w ;;;
          ret Next
      end
  end.

(** Lines 274-323: one iteration, with its two [except] clauses.  An
    exception raised inside a handler is not caught by the other clause. *)
Definition iteration (self : DeploymentMonitor) (w : World) : M flow :=
  match loop_body self w with
  | (t, Ok f) => (t, Ok f)
  | (t, Raise KeyboardInterrupt) =>
      let '(t', r) := (print LogStoppedByUser ;;; ret Break) in (t ++ t', r)
  | (t, Raise e) =>
      let '(t', r) := (print (LogLoopError e) ;;; sleep w ;;; ret Next) in
      (t ++ t', r)
  end.

(** The [while] loop: [ticks] holds the answers of the world for each
    iteration that starts before [end_time]; when it is used up the test
    [datetime.utcnow() < end_time] fails. *)
Fixpoint while_loop (self : DeploymentMonitor) (ticks : list World) : M unit :=
  match ticks with
  | [] => ret tt
  | w :: rest =>
      f <- iteration self w ;;
      match f with
      | Break => ret tt
      | Next => while_loop self rest
      end
  end.

Definition monitor (self : DeploymentMonitor) (duration_minutes : Z)
    (ticks : list World) : M unit :=
  print (LogStarting duration_minutes) ;;;
  while_loop self ticks ;;;
  print LogCompleted.

(** ** [main] (lines 340-341): build the monitor, then run it *)

Definition main (openai_api_key : string) (slack_webhook_url : option string)
    (error_answer cpu_answer : cw_response)
    (duration_minutes : Z) (ticks : list World) : M unit :=
  self <- init openai_api_key slack_webhook_url error_answer cpu_answer ;;
  monitor self duration_minutes ticks.

(** * Vocabulary of the properties *)

(** The four metrics of a snapshot, and the order in which
    [check_thresholds] looks at them. *)
Inductive metric : Type :=
  | ErrorRate
  | CpuUsage
  | MemoryUsage
  | AvgLatency.

#[global] Instance metric_eq_dec : EqDecision metric.
Proof. solve_decision. Defined.

Definition check_order : list metric :=
  [ErrorRate; CpuUsage; MemoryUsage; AvgLatency].

Definition observed (m : Metrics) (k : metric) : Q :=
  match k with
  | ErrorRate => m_error_rate m
  | CpuUsage => m_cpu_usage m
  | MemoryUsage => m_memory_usage m
  | AvgLatency => m_avg_latency m
  end.

(** The ceiling each metric is compared with: the latency is compared with
    the ['response_time'] entry. *)
Definition ceiling (t : Thresholds) (k : metric) : Q :=
  match k with
  | ErrorRate => t_error_rate t
  | CpuUsage => t_cpu_usage t
  | MemoryUsage => t_memory_usage t
  | AvgLatency => t_response_time t
  end.

Definition label (k : metric) : string :=
  match k with
  | ErrorRate => "High error rate: "
  | CpuUsage => "High CPU usage: "
  | MemoryUsage => "High memory usage: "
  | AvgLatency => "High response time: "
  end.

Definition unit_of (k : metric) : string :=
  match k with
  | AvgLatency => "ms"
  | _ => "%"
  end.

(** The alert for metric [k]: its name, then the observed value. *)
Definition alert_text (m : Metrics) (k : metric) : string :=
  label k +:+ fmt_1f (observed m k) +:+ unit_of k.

Definition exceeds (self : DeploymentMonitor) (m : Metrics) (k : metric) : bool :=
  Qgt_bool (observed m k) (ceiling (thresholds self) k).

(** The same monitor with another value under ['latency']. *)
Definition with_latency_limit (self : DeploymentMonitor) (x : Q)
  : DeploymentMonitor :=
  {| openai_api_key := openai_api_key self;
     slack_webhook_url := slack_webhook_url self;
     thresholds :=
       {| t_error_rate := t_error_rate (thresholds self);
          t_cpu_usage := t_cpu_usage (thresholds self);
          t_memory_usage := t_memory_usage (thresholds self);
          t_response_time := t_response_time (thresholds self);
          t_latency := x |};
     baseline_metrics := baseline_metrics self |}.

(** The error-rate signal in the words of the specification: the change
    relative to the baseline, the baseline floored at 1, as a percentage. *)
Definition spec_error_signal (current baseline : Q) : Q :=
  ((current - baseline) / Qmax baseline 1 * 100)%Q.

(** The CPU signal in the words of the specification: the difference in
    percentage points. *)
Definition spec_cpu_signal (current baseline : Q) : Q :=
  (current - baseline)%Q.

Definition is_update_service (ev : event) : bool :=
  match ev with
  | EvUpdateService _ => true
  | _ => false
  end.

Definition world_with_revisions (arns : list string) : World :=
  {| w_utcnow_iso := "2024-01-01T00:00:00"; w_utcnow_str := "2024-01-01 00:00:00";
     w_5xx_count := CwDatapoints [1%Q]; w_response_time := CwDatapoints [500%Q];
     w_cpu := CwDatapoints [95%Q]; w_memory := CwDatapoints [40%Q];
     w_openai := AiRaise "timeout"; w_slack := fun _ => None;
     w_ecs_list := EcsArns arns; w_ecs_update := fun _ => None;
     w_interrupt := false |}.

(** A window without a datapoint for any metric. *)
Definition no_data_world : World :=
  {| w_utcnow_iso := "2024-01-01T00:00:00"; w_utcnow_str := "2024-01-01 00:00:00";
     w_5xx_count := CwDatapoints []; w_response_time := CwDatapoints [];
     w_cpu := CwDatapoints []; w_memory := CwDatapoints [];
     w_openai := AiRaise "timeout"; w_slack := fun _ => None;
     w_ecs_list := EcsArns []; w_ecs_update := fun _ => None;
     w_interrupt := false |}.

Definition raises (r : cw_response) : Prop :=
  match r with
  | CwRaise _ => True
  | CwDatapoints _ => False
  end.

(** The monitor that [__init__] builds when the baseline cannot be read. *)
Definition monitor_with_default_baseline (key : string) (url : option string)
  : DeploymentMonitor :=
  {| openai_api_key := key; slack_webhook_url := url;
     thresholds := default_thresholds;
     baseline_metrics := {| b_error_rate := 0; b_cpu_usage := 0 |} |}.

Definition starts_with (ev : event) (t : list event) : Prop :=
  exists t', t = ev :: t'.

(** [rollback_deployment] starts by listing the task definitions: that call
    marks an invocation of the executor. *)
Definition is_rollback_call (ev : event) : bool :=
  match ev with
  | EvListTaskDefinitions => true
  | _ => false
  end.

Definition rollback_calls (t : list event) : nat :=
  length (List.filter is_rollback_call t).

Definition rollback_free {A} (m : M A) : Prop :=
  rollback_calls (trace m) = 0%nat.

(** The events of an evaluation: fetching metrics, calling the classifier,
    waiting for the next iteration, invoking the rollback executor. *)
Definition is_evaluation_event (ev : event) : bool :=
  match ev with
  | EvCloudWatch _ | EvOpenAI _ | EvSleep | EvListTaskDefinitions => true
  | _ => false
  end.

(** The verdict for which line 308 starts the rollback. *)
Definition verdict_triggers (d : gmap string json) : Prop :=
  py_truthy (dict_get d "anomaly_detected" JNull) = true
  /\ dict_get d "severity" (JStr "MEDIUM") = JStr "CRITICAL"
  /\ py_truthy (dict_get d "rollback_recommended" (JBool false)) = true.

Definition classifier_triggers (w : World) : Prop :=
  exists d, w_openai w = AiJson (JObj d) /\ verdict_triggers d.

(** The message and the severity of the alert that reports the result of the
    rollback (lines 310-313). *)
Definition result_message (rolled_back : bool) : message :=
  if rolled_back then MsgRollbackCompleted else MsgRollbackFailed.

Definition result_severity (rolled_back : bool) : json :=
  if rolled_back then JStr "INFO" else JStr "CRITICAL".

(** The computation is a prefix without rollback call followed by the
    rollback step of this iteration, and leaves the loop. *)
Definition rolls_back (self : DeploymentMonitor) (w : World) (m : M flow)
  : Prop :=
  exists pre,
    m = (pre ++ trace (rollback_step self w), Ok Break)
    /\ rollback_calls pre = 0%nat.

Definition at_most_once (self : DeploymentMonitor) (w : World) (m : M flow)
  : Prop :=
  rollback_free m \/ (classifier_triggers w /\ rolls_back self w m).

(** A verdict that reports a critical anomaly, with a given value under
    ['rollback_recommended']. *)
Definition critical_verdict (rollback_recommended : json) : gmap string json :=
  <["anomaly_detected" := JBool true]>
    (<["severity" := JStr "CRITICAL"]>
       (<["rollback_recommended" := rollback_recommended]> ∅)).

Definition world_with_verdict (v : json) (arns : list string) : World :=
  {| w_utcnow_iso := "2024-01-01T00:00:00"; w_utcnow_str := "2024-01-01 00:00:00";
     w_5xx_count := CwDatapoints [1%Q]; w_response_time := CwDatapoints [500%Q];
     w_cpu := CwDatapoints [95%Q]; w_memory := CwDatapoints [40%Q];
     w_openai := AiJson v; w_slack := fun _ => None;
     w_ecs_list := EcsArns arns; w_ecs_update := fun _ => None;
     w_interrupt := false |}.

(** The monitor used in the examples. *)
Definition example_monitor : DeploymentMonitor :=
  monitor_with_default_baseline "key" None.

(** An iteration whose verdict asks for the rollback, with two revisions. *)
Definition rollback_world : World :=
  world_with_verdict (JObj (critical_verdict (JBool true))) ["task:7"; "task:6"].

Definition example_ticks : list World :=
  [rollback_world; rollback_world; world_with_revisions []].

(** An iteration whose verdict has the string "NO" under
    ['rollback_recommended']. *)
Definition string_verdict_world : World :=
  world_with_verdict (JObj (critical_verdict (JStr "NO"))) ["task:7"; "task:6"].

(** A verdict that reports an anomaly and recommends the rollback but has
    no ['severity']. *)
Definition verdict_without_severity : gmap string json :=
  <["anomaly_detected" := JBool true]>
    (<["rollback_recommended" := JBool true]> ∅).

(** ** Counting events *)

Definition count_events (p : event -> bool) (t : list event) : nat :=
  length (List.filter p t).

(** The computation emits no event of the kind [p]. *)
Definition silent (p : event -> bool) {A} (m : M A) : Prop :=
  count_events p (trace m) = 0%nat.

Definition is_cloudwatch (ev : event) : bool :=
  match ev with
  | EvCloudWatch _ => true
  | _ => false
  end.

Definition is_classifier_call (ev : event) : bool :=
  match ev with
  | EvOpenAI _ => true
  | _ => false
  end.


Definition is_sleep (ev : event) : bool :=
  match ev with
  | EvSleep => true
  | _ => false
  end.

(** An alert reaches the operator as a Slack post or, without webhook, as
    a printed line. *)
Definition is_alert (ev : event) : bool :=
  match ev with
  | EvSlackPost _ _ => true
  | EvPrint (LogAlert _) => true
  | _ => false
  end.

Definition sleeps (t : list event) : nat := count_events is_sleep t.

Definition classifier_calls (t : list event) : nat :=
  count_events is_classifier_call t.

(** The metric names of the four calls of [get_current_metrics], in the
    order of the calls. *)
Definition metric_names : list string :=
  ["HTTPCode_Target_5XX_Count"; "TargetResponseTime"; "CPUUtilization";
   "MemoryUtilization"].

(** How many answers return before the first one that raises. *)
Fixpoint leading_answers (answers : list cw_response) : nat :=
  match answers with
  | CwDatapoints _ :: rest => S (leading_answers rest)
  | _ => 0%nat
  end.

Definition current_answers (w : World) : list cw_response :=
  [w_5xx_count w; w_response_time w; w_cpu w; w_memory w].

(** The computation raises nothing that [except Exception] lets through. *)
Definition raises_only_exceptions {A} (m : M A) : Prop :=
  forall e, outcome m = Raise e -> is_Exception e = true.

(** A step that neither sleeps nor calls the rollback executor. *)
Definition quiet {A} (m : M A) : Prop :=
  sleeps (trace m) = 0%nat /\ rollback_calls (trace m) = 0%nat
  /\ raises_only_exceptions m.

(** The three ways the body of the loop can end before its final sleep:
    it fell through, it raised an exception, or it rolled back and left the
    loop. *)
Definition staged (m : M flow) : Prop :=
  (sleeps (trace m) = 0%nat /\ rollback_calls (trace m) = 0%nat
   /\ (outcome m = Ok Next
       \/ exists e, outcome m = Raise e /\ is_Exception e = true))
  \/ (sleeps (trace m) = 0%nat /\ rollback_calls (trace m) = 1%nat
      /\ outcome m = Ok Break).

(** The three ways the body of the loop can end: after its sleep, after
    the rollback, or by an exception raised before either. *)
Definition paced (w : World) (m : M flow) : Prop :=
  (sleeps (trace m) = 1%nat /\ rollback_calls (trace m) = 0%nat
   /\ outcome m = if w_interrupt w then Raise KeyboardInterrupt else Ok Next)
  \/ (sleeps (trace m) = 0%nat /\ rollback_calls (trace m) = 1%nat
      /\ outcome m = Ok Break)
  \/ (sleeps (trace m) = 0%nat /\ rollback_calls (trace m) = 0%nat
      /\ exists e, outcome m = Raise e /\ is_Exception e = true).

(** The status line of an iteration (line 281). *)
Definition status_line (w : World) (m : Metrics) : event :=
  EvPrint (LogStatus (w_utcnow_str w) (fmt_1f (m_error_rate m))
             (fmt_1f (m_cpu_usage m)) (fmt_1f (m_memory_usage m))).

(** The events of lines 284-287: the threshold alert, when there is one. *)
Definition threshold_alert_trace (self : DeploymentMonitor) (w : World)
    (m : Metrics) : list event :=
  match check_thresholds self m with
  | [] => []
  | alerts => trace (send_alert self w (MsgThreshold alerts) (JStr "WARNING"))
  end.

(** A monitor that posts its alerts to a webhook. *)
Definition slack_monitor : DeploymentMonitor :=
  monitor_with_default_baseline "key" (Some "https://hooks.example/T000").

(** A critical verdict that recommends the rollback, with [null] under
    ['causes']. *)
Definition verdict_with_null_causes : gmap string json :=
  <["causes" := JNull]> (critical_verdict (JBool true)).

(** An iteration during which CloudWatch fails at the third call. *)
Definition cpu_failure_world : World :=
  {| w_utcnow_iso := "2024-01-01T00:00:00"; w_utcnow_str := "2024-01-01 00:00:00";
     w_5xx_count := CwDatapoints [1%Q]; w_response_time := CwDatapoints [500%Q];
     w_cpu := CwRaise "throttled"; w_memory := CwDatapoints [40%Q];
     w_openai := AiRaise "timeout"; w_slack := fun _ => None;
     w_ecs_list := EcsArns []; w_ecs_update := fun _ => None;
     w_interrupt := false |}.

(** An iteration with an ordinary verdict, during which the operator
    interrupts. *)
Definition interrupted_world : World :=
  {| w_utcnow_iso := "2024-01-01T00:00:00"; w_utcnow_str := "2024-01-01 00:00:00";
     w_5xx_count := CwDatapoints [1%Q]; w_response_time := CwDatapoints [500%Q];
     w_cpu := CwDatapoints [95%Q]; w_memory := CwDatapoints [40%Q];
     w_openai := AiRaise "timeout"; w_slack := fun _ => None;
     w_ecs_list := EcsArns []; w_ecs_update := fun _ => None;
     w_interrupt := true |}.

Definition is_JObj (v : json) : bool :=
  match v with
  | JObj _ => true
  | _ => false
  end.

(** * Properties *)

(** ** Comparisons and the monad *)

Lemma Qgt_bool_true (x y : Q) : Qgt_bool x y = true <-> (y < x)%Q.
Proof.
  unfold Qgt_bool. rewrite negb_true_iff.
  split.
  - intros H. apply Qnot_le_lt. intros Hle.
    apply Qle_bool_iff in Hle. congruence.
  - intros H. destruct (Qle_bool x y) eqn:E; [|reflexivity].
    apply Qle_bool_iff in E. exfalso. apply (Qlt_not_le _ _ H E).
Qed.

Lemma Qgt_bool_false (x y : Q) : Qgt_bool x y = false <-> (x <= y)%Q.
Proof.
  unfold Qgt_bool. rewrite negb_false_iff. apply Qle_bool_iff.
Qed.

Lemma trace_bind {A B} (m : M A) (f : A -> M B) :
  trace (bind m f) =
  match outcome m with
  | Ok a => trace m ++ trace (f a)
  | Raise _ => trace m
  end.
Proof.
  destruct m as [t [a|e]]; simpl; [|reflexivity].
  destruct (f a); reflexivity.
Qed.

(** ** The threshold check, metric by metric *)

Lemma exceeds_true self m k :
  exceeds self m k = true <-> (ceiling (thresholds self) k < observed m k)%Q.
Proof. apply Qgt_bool_true. Qed.

Lemma check_thresholds_filter self m :
  check_thresholds self m =
  alert_text m <$> List.filter (exceeds self m) check_order.
Proof.
  unfold check_thresholds, check_order, exceeds. simpl.
  destruct (Qgt_bool (m_error_rate m) _), (Qgt_bool (m_cpu_usage m) _),
    (Qgt_bool (m_memory_usage m) _), (Qgt_bool (m_avg_latency m) _);
    reflexivity.
Qed.

Lemma alert_text_inj m : Inj (=) (=) (alert_text m).
Proof.
  intros k k' H. unfold alert_text in H.
  destruct k, k'; try reflexivity;
    apply (f_equal (String.get 5)) in H; vm_compute in H; discriminate H.
Qed.

Lemma check_order_NoDup : NoDup check_order.
Proof.
  apply (bool_decide_unpack _). reflexivity.
Qed.

Lemma elem_of_check_order k : k ∈ check_order.
Proof.
  destruct k; apply (bool_decide_unpack _); reflexivity.
Qed.

Lemma elem_of_check_thresholds self m k :
  alert_text m k ∈ check_thresholds self m <->
  (ceiling (thresholds self) k < observed m k)%Q.
Proof.
  rewrite check_thresholds_filter, <- exceeds_true.
  split.
  - intros H. apply list_elem_of_fmap in H as (k' & Heq & Hin).
    apply alert_text_inj in Heq. subst k'.
    apply list_elem_of_In, List.filter_In in Hin. tauto.
  - intros H. apply list_elem_of_fmap. exists k. split; [reflexivity|].
    apply list_elem_of_In, List.filter_In. split; [|assumption].
    apply list_elem_of_In, elem_of_check_order.
Qed.

(** C3.  [check_thresholds] returns the alerts of the metrics that strictly
    exceed their ceiling, in the order error rate, CPU, memory, latency:
    one alert for each such metric and none for the others, each made of
    the metric's name and its observed value; when exactly one metric
    exceeds its ceiling the result is that metric's alert alone. *)
Theorem check_thresholds_one_alert_per_exceeded_metric
    (self : DeploymentMonitor) (m : Metrics) :
  check_thresholds self m =
    alert_text m <$> List.filter (exceeds self m) check_order
  /\ (forall k, alert_text m k ∈ check_thresholds self m <->
                (ceiling (thresholds self) k < observed m k)%Q)
  /\ NoDup (check_thresholds self m)
  /\ length (check_thresholds self m) =
       length (List.filter (exceeds self m) check_order)
  /\ (forall k,
        (ceiling (thresholds self) k < observed m k)%Q ->
        (forall k', k' <> k ->
                    ~ (ceiling (thresholds self) k' < observed m k')%Q) ->
        check_thresholds self m = [alert_text m k]).
Proof.
  split; [apply check_thresholds_filter|].
  split; [apply elem_of_check_thresholds|].
  split.
  { rewrite check_thresholds_filter.
    apply (NoDup_fmap_2 (alert_text m) (Inj0:=alert_text_inj m)).
    apply NoDup_ListNoDup, List.NoDup_filter, NoDup_ListNoDup,
      check_order_NoDup. }
  split.
  { rewrite check_thresholds_filter. apply length_fmap. }
  intros k Hk Hothers.
  rewrite check_thresholds_filter. unfold check_order. simpl.
  assert (Hb : forall k', exceeds self m k' = bool_decide (k' = k)).
  { intros k'. case_bool_decide as Hd.
    - subst k'. by apply exceeds_true.
    - apply not_true_is_false. rewrite exceeds_true. by apply Hothers. }
  rewrite !Hb. destruct k; reflexivity.
Qed.

(** C3, at a snapshot where only the CPU usage exceeds its ceiling. *)
Lemma check_thresholds_one_alert_per_exceeded_metric_witness :
  check_thresholds
    {| openai_api_key := "key"; slack_webhook_url := None;
       thresholds := default_thresholds;
       baseline_metrics := {| b_error_rate := 0; b_cpu_usage := 20 |} |}
    {| m_error_rate := 1; m_avg_latency := 500; m_cpu_usage := 95;
       m_memory_usage := 40; m_timestamp := "" |}
  = ["High CPU usage: 95.0%"].
Proof.
  pose proof (check_thresholds_one_alert_per_exceeded_metric
    {| openai_api_key := "key"; slack_webhook_url := None;
       thresholds := default_thresholds;
       baseline_metrics := {| b_error_rate := 0; b_cpu_usage := 20 |} |}
    {| m_error_rate := 1; m_avg_latency := 500; m_cpu_usage := 95;
       m_memory_usage := 40; m_timestamp := "" |}) as (_ & _ & _ & _ & H).
  rewrite (H CpuUsage).
  - reflexivity.
  - reflexivity.
  - intros k' Hne. destruct k'; simpl; try congruence; intros Hlt;
      vm_compute in Hlt; discriminate Hlt.
Defined.

(** C4.  When every metric is below its ceiling, [check_thresholds] returns
    the empty list; as a function on snapshots it has a result for every
    snapshot.  With the thresholds of [__init__] this also holds when the
    latency is read against the ['latency'] entry instead of the
    ['response_time'] entry it is compared with. *)
Theorem check_thresholds_all_below
    (self : DeploymentMonitor) (m : Metrics) :
  ((forall k, (observed m k < ceiling (thresholds self) k)%Q) ->
   check_thresholds self m = [])
  /\ (thresholds self = default_thresholds ->
      (m_error_rate m < t_error_rate (thresholds self))%Q ->
      (m_cpu_usage m < t_cpu_usage (thresholds self))%Q ->
      (m_memory_usage m < t_memory_usage (thresholds self))%Q ->
      (m_avg_latency m < t_latency (thresholds self))%Q ->
      check_thresholds self m = []).
Proof.
  assert (Hgen : (forall k, (observed m k < ceiling (thresholds self) k)%Q) ->
                 check_thresholds self m = []).
  { intros Hbelow.
    rewrite check_thresholds_filter. unfold check_order. simpl.
    assert (Hb : forall k, exceeds self m k = false).
    { intros k. apply Qgt_bool_false, Qlt_le_weak, Hbelow. }
    by rewrite !Hb. }
  split; [exact Hgen|].
  intros Hth He Hc Hm Hl. apply Hgen.
  intros k. destruct k; simpl; try assumption.
  rewrite Hth in *. simpl in *.
  apply Qlt_trans with (y := 1000%Q); [assumption | reflexivity].
Qed.

Lemma check_thresholds_all_below_witness :
  check_thresholds
    {| openai_api_key := "key"; slack_webhook_url := None;
       thresholds := default_thresholds;
       baseline_metrics := {| b_error_rate := 0; b_cpu_usage := 20 |} |}
    {| m_error_rate := 0; m_avg_latency := 100; m_cpu_usage := 22;
       m_memory_usage := 30; m_timestamp := "" |}
  = [].
Proof.
  apply (proj1 (check_thresholds_all_below _ _)).
  intros k. destruct k; reflexivity.
Defined.

(** ** The ['latency'] entry of the threshold table *)

Lemma while_loop_latency_irrelevant self x ticks :
  while_loop (with_latency_limit self x) ticks = while_loop self ticks.
Proof.
  induction ticks as [|w rest IH]; [reflexivity|].
  simpl. change (iteration (with_latency_limit self x) w) with (iteration self w).
  destruct (iteration self w) as [t [[|]|e]]; simpl; [|reflexivity..].
  by rewrite IH.
Qed.

(** C9.  The latency of a snapshot is compared with the ['response_time']
    ceiling of 2000 and not with the ['latency'] entry of 1000: no method
    reads that entry (changing it changes no result), and with the
    thresholds set by [__init__] a snapshot whose average latency lies
    strictly between 1000 and 2000, the other metrics within their limits,
    gives no alert, so no latency alert either. *)
Theorem latency_checked_against_response_time :
  (forall self m,
     alert_text m AvgLatency ∈ check_thresholds self m <->
     (t_response_time (thresholds self) < m_avg_latency m)%Q)
  /\ (forall self x m,
        check_thresholds (with_latency_limit self x) m = check_thresholds self m)
  /\ (forall self x m w,
        detect_anomalies (with_latency_limit self x) m w = detect_anomalies self m w)
  /\ (forall self x w msg severity,
        send_alert (with_latency_limit self x) w msg severity =
        send_alert self w msg severity)
  /\ (forall self x d ticks,
        monitor (with_latency_limit self x) d ticks = monitor self d ticks)
  /\ (forall self m,
        thresholds self = default_thresholds ->
        (1000 < m_avg_latency m)%Q -> (m_avg_latency m < 2000)%Q ->
        (m_error_rate m <= 5)%Q -> (m_cpu_usage m <= 80)%Q ->
        (m_memory_usage m <= 85)%Q ->
        (t_latency (thresholds self) < m_avg_latency m)%Q
        /\ check_thresholds self m = []
        /\ alert_text m AvgLatency ∉ check_thresholds self m).
Proof.
  split; [intros self m; apply (elem_of_check_thresholds self m AvgLatency)|].
  split; [reflexivity|].
  split; [reflexivity|].
  split; [reflexivity|].
  split.
  { intros self x d ticks. unfold monitor.
    by rewrite while_loop_latency_irrelevant. }
  intros self m Hth Hlo Hhi He Hc Hm.
  assert (Hnil : check_thresholds self m = []).
  { unfold check_thresholds. rewrite Hth. simpl.
    rewrite (proj2 (Qgt_bool_false _ _) He), (proj2 (Qgt_bool_false _ _) Hc),
      (proj2 (Qgt_bool_false _ _) Hm),
      (proj2 (Qgt_bool_false _ _) (Qlt_le_weak _ _ Hhi)).
    reflexivity. }
  split; [by rewrite Hth|].
  split; [assumption|].
  rewrite Hnil. apply not_elem_of_nil.
Qed.

(** C9, at a snapshot with an average latency of 1500. *)
Lemma latency_checked_against_response_time_witness :
  check_thresholds
    {| openai_api_key := "key"; slack_webhook_url := None;
       thresholds := default_thresholds;
       baseline_metrics := {| b_error_rate := 0; b_cpu_usage := 20 |} |}
    {| m_error_rate := 1; m_avg_latency := 1500; m_cpu_usage := 50;
       m_memory_usage := 40; m_timestamp := "" |}
  = [].
Proof.
  pose proof latency_checked_against_response_time as (_ & _ & _ & _ & _ & H).
  apply H; reflexivity || (intros Hgt; vm_compute in Hgt; discriminate Hgt).
Defined.

(** ** The derived signals of the classifier *)

Lemma Qgt_bool_compare (x y : Q) : Qgt_bool y x = true <-> Qcompare x y = Lt.
Proof. rewrite Qgt_bool_true. apply Qlt_alt. Qed.

Lemma py_max_Qmax (x y : Q) : py_max x y = Qmax x y.
Proof.
  unfold py_max, Qmax, GenericMinMax.gmax.
  destruct (Qcompare x y) eqn:C; destruct (Qgt_bool y x) eqn:E;
    try reflexivity.
  - apply Qgt_bool_compare in E. congruence.
  - apply Qgt_bool_compare in C. congruence.
  - apply Qgt_bool_compare in E. congruence.
Qed.

Lemma py_max_floor (x : Q) : (1 <= py_max x 1)%Q.
Proof.
  unfold py_max. destruct (Qgt_bool 1 x) eqn:E.
  - apply Qle_refl.
  - by apply Qgt_bool_false in E.
Qed.

Lemma error_change_eq self m :
  error_change self m =
  ([], Ok (spec_error_signal (m_error_rate m) (b_error_rate (baseline_metrics self)))).
Proof.
  unfold error_change, py_truediv, spec_error_signal.
  pose proof (py_max_floor (b_error_rate (baseline_metrics self))) as Hfloor.
  destruct (Qeq_bool (py_max (b_error_rate (baseline_metrics self)) 1) 0) eqn:E.
  - apply Qeq_bool_iff in E. rewrite E in Hfloor. by vm_compute in Hfloor.
  - by rewrite py_max_Qmax.
Qed.

(** C8.  The error-rate signal that [detect_anomalies] computes is
    ((current - baseline) / max(baseline, 1)) * 100: the divisor is at
    least 1, so the division never raises, also for a baseline of zero,
    where the signal is the current error rate times 100.  The CPU signal
    is the difference current - baseline.  Both are what the request to the
    classifier carries. *)
Theorem detect_anomalies_derived_signals
    (self : DeploymentMonitor) (m : Metrics) :
  let current := m_error_rate m in
  let baseline := b_error_rate (baseline_metrics self) in
  (1 <= py_max baseline 1)%Q
  /\ outcome (error_change self m) =
       Ok ((current - baseline) / Qmax baseline 1 * 100)%Q
  /\ outcome (error_change self m) = Ok (spec_error_signal current baseline)
  /\ cpu_change self m =
       spec_cpu_signal (m_cpu_usage m) (b_cpu_usage (baseline_metrics self))
  /\ (forall w, exists p rest,
        trace (detect_anomalies self (Some m) w) = EvOpenAI p :: rest
        /\ p_error_change p = spec_error_signal current baseline
        /\ p_cpu_change p = (m_cpu_usage m - b_cpu_usage (baseline_metrics self))%Q)
  /\ ((baseline == 0)%Q ->
      (spec_error_signal current baseline == current * 100)%Q).
Proof.
  intros current baseline.
  split; [apply py_max_floor|].
  split; [by rewrite error_change_eq|].
  split; [by rewrite error_change_eq|].
  split; [reflexivity|].
  split.
  - intros w. unfold detect_anomalies. rewrite error_change_eq.
    destruct (w_openai w) as [msg|v]; simpl; eauto.
  - intros Hz. unfold spec_error_signal.
    assert (Hmax : Qmax baseline 1 = 1%Q).
    { rewrite <- py_max_Qmax. unfold py_max.
      destruct (Qgt_bool 1 baseline) eqn:E; [reflexivity|].
      apply Qgt_bool_false in E. rewrite Hz in E. by vm_compute in E. }
    rewrite Hmax, Hz. field.
Qed.

(** C8, at a baseline error rate of zero and a current error rate of 3. *)
Lemma detect_anomalies_derived_signals_witness :
  (spec_error_signal 3 0 == 3 * 100)%Q.
Proof.
  pose proof (detect_anomalies_derived_signals
    {| openai_api_key := "key"; slack_webhook_url := None;
       thresholds := default_thresholds;
       baseline_metrics := {| b_error_rate := 0; b_cpu_usage := 20 |} |}
    {| m_error_rate := 3; m_avg_latency := 100; m_cpu_usage := 22;
       m_memory_usage := 30; m_timestamp := "" |}) as (_ & _ & _ & _ & _ & H).
  apply H. reflexivity.
Defined.

(** ** The rollback executor *)

(** C5.  When [list_task_definitions] returns fewer than two revisions,
    [rollback_deployment] returns [False] after printing that no previous
    version is available, and never calls [update_service]; when it returns
    two or more (newest first), the one call of [update_service] is made
    with the second entry of the list. *)
Theorem rollback_deployment_previous_version
    (w : World) (arns : list string)
    (Hlist : w_ecs_list w = EcsArns arns) :
  ((length arns < 2)%nat ->
     rollback_deployment w =
       ([EvListTaskDefinitions; EvPrint LogNoPreviousVersion], Ok false)
     /\ List.filter is_update_service (trace (rollback_deployment w)) = [])
  /\ ((2 <= length arns)%nat ->
      exists previous,
        arns !! 1%nat = Some previous
        /\ List.filter is_update_service (trace (rollback_deployment w)) =
             [EvUpdateService previous]
        /\ rollback_deployment w =
             match w_ecs_update w previous with
             | None =>
                 ([EvListTaskDefinitions; EvUpdateService previous;
                   EvPrint (LogRollbackInitiated previous)], Ok true)
             | Some err =>
                 ([EvListTaskDefinitions; EvUpdateService previous;
                   EvPrint (LogRollbackError (Failure err))], Ok false)
             end).
Proof.
  split.
  - intros Hlen. unfold rollback_deployment. rewrite Hlist. simpl.
    apply Nat.ltb_lt in Hlen. rewrite Hlen. simpl. by split.
  - intros Hlen. unfold rollback_deployment. rewrite Hlist. simpl.
    destruct arns as [|newest [|previous older]]; simpl in Hlen; try lia.
    exists previous. simpl.
    destruct (w_ecs_update w previous) as [err|]; simpl; by repeat split.
Qed.

(** C5, with one revision and with three. *)
Lemma rollback_deployment_previous_version_witness :
  rollback_deployment (world_with_revisions ["task:7"]) =
    ([EvListTaskDefinitions; EvPrint LogNoPreviousVersion], Ok false)
  /\ List.filter is_update_service
       (trace (rollback_deployment (world_with_revisions ["task:7"; "task:6"; "task:5"])))
     = [EvUpdateService "task:6"].
Proof.
  split.
  - apply (rollback_deployment_previous_version
             (world_with_revisions ["task:7"]) ["task:7"]);
      [reflexivity | simpl; lia].
  - destruct (rollback_deployment_previous_version
                (world_with_revisions ["task:7"; "task:6"; "task:5"])
                ["task:7"; "task:6"; "task:5"] eq_refl) as [_ H].
    destruct H as (previous & Hprev & Hcalls & _); [simpl; lia|].
    simpl in Hprev. injection Hprev as <-. exact Hcalls.
Defined.

(** ** Fetching the current metrics *)

(** C6 as stated fails: with no datapoint for any metric the fetch returns
    a snapshot of zeros, not [None]. *)
Lemma get_current_metrics_no_data_is_zero_snapshot :
  w_cpu no_data_world = CwDatapoints []
  /\ outcome (get_current_metrics no_data_world) =
       Ok (Some {| m_error_rate := 0; m_avg_latency := 0; m_cpu_usage := 0;
                   m_memory_usage := 0; m_timestamp := "2024-01-01T00:00:00" |})
  /\ outcome (get_current_metrics no_data_world) <> Ok None.
Proof. repeat split. discriminate. Qed.

(** C6, amended.  When the four calls return, the fetch returns a snapshot
    in which each metric is the last datapoint of its answer, and 0 when the
    answer has no datapoint: no data and a measured zero give the same
    snapshot.  The result is [None] exactly when one of the calls raises. *)
Theorem get_current_metrics_zero_fill (w : World) :
  (forall e l c m,
     w_5xx_count w = CwDatapoints e -> w_response_time w = CwDatapoints l ->
     w_cpu w = CwDatapoints c -> w_memory w = CwDatapoints m ->
     outcome (get_current_metrics w) =
       Ok (Some {| m_error_rate := last_or_zero e;
                   m_avg_latency := last_or_zero l;
                   m_cpu_usage := last_or_zero c;
                   m_memory_usage := last_or_zero m;
                   m_timestamp := w_utcnow_iso w |}))
  /\ last_or_zero [] = 0%Q
  /\ last_or_zero [0%Q] = last_or_zero []
  /\ (forall l x, last_or_zero (l ++ [x]) = x)
  /\ (outcome (get_current_metrics w) = Ok None <->
      raises (w_5xx_count w) \/ raises (w_response_time w)
      \/ raises (w_cpu w) \/ raises (w_memory w)).
Proof.
  split.
  { intros e l c m He Hl Hc Hm. unfold get_current_metrics.
    by rewrite He, Hl, Hc, Hm. }
  split; [reflexivity|].
  split; [reflexivity|].
  split.
  { intros l x. unfold last_or_zero. by rewrite last_snoc. }
  unfold get_current_metrics.
  destruct (w_5xx_count w), (w_response_time w), (w_cpu w), (w_memory w);
    simpl; split; intros H; try tauto; try discriminate H.
Qed.

(** C6 amended, at the window without datapoints. *)
Lemma get_current_metrics_zero_fill_witness :
  outcome (get_current_metrics no_data_world) =
    Ok (Some {| m_error_rate := 0; m_avg_latency := 0; m_cpu_usage := 0;
                m_memory_usage := 0; m_timestamp := "2024-01-01T00:00:00" |}).
Proof.
  destruct (get_current_metrics_zero_fill no_data_world) as [H _].
  apply (H [] [] [] []); reflexivity.
Defined.

(** ** Start of a session *)

(** C7 as stated fails: with CloudWatch unreachable when the baseline is
    read, the session does not end with an error; it goes through an
    iteration of the loop (it fetches the metrics, calls the classifier and
    sleeps) and completes. *)
Lemma main_runs_with_unreachable_baseline :
  main "key" None (CwRaise "unreachable") (CwRaise "unreachable") 30
       [world_with_revisions []]
  = ([EvCloudWatch "HTTPCode_Target_5XX_Count";
      EvPrint (LogBaselineError (Failure "unreachable"));
      EvPrint (LogStarting 30);
      EvCloudWatch "HTTPCode_Target_5XX_Count";
      EvCloudWatch "TargetResponseTime";
      EvCloudWatch "CPUUtilization";
      EvCloudWatch "MemoryUtilization";
      EvPrint (LogStatus "2024-01-01 00:00:00" "1.0" "95.0" "40.0");
      EvPrint (LogAlert (MsgThreshold ["High CPU usage: 95.0%"]));
      EvOpenAI {| p_error_rate := 1; p_error_change := 1 / 1 * 100;
                  p_cpu_usage := 95; p_cpu_change := 95 - 0;
                  p_memory_usage := 40; p_avg_latency := 500;
                  p_baseline_error_rate := 0; p_baseline_cpu_usage := 0;
                  p_threshold_error_rate := 5; p_threshold_cpu_usage := 80;
                  p_threshold_memory_usage := 85;
                  p_threshold_response_time := 2000 |};
      EvPrint (LogAIError (Failure "timeout"));
      EvSleep;
      EvPrint LogCompleted],
     Ok tt).
Proof. vm_compute. reflexivity. Qed.

(** ** How traces begin *)

Lemma starts_with_app ev t t' : starts_with ev t -> starts_with ev (t ++ t').
Proof. intros [t0 ->]. by exists (t0 ++ t'). Qed.

Lemma starts_with_bind {A B} ev (m : M A) (f : A -> M B) :
  starts_with ev (trace m) -> starts_with ev (trace (bind m f)).
Proof.
  intros H. rewrite trace_bind.
  destruct (outcome m); [by apply starts_with_app | assumption].
Qed.

Lemma starts_with_try_except {A} ev (m : M A) (h : exn -> M A) :
  starts_with ev (trace m) -> starts_with ev (trace (try_except m h)).
Proof.
  intros H. destruct m as [t [a|e]]; simpl in *; [assumption|].
  destruct (is_Exception e); [|assumption].
  destruct (h e). by apply starts_with_app.
Qed.

Lemma get_metric_statistics_starts name r :
  starts_with (EvCloudWatch name) (trace (get_metric_statistics name r)).
Proof. destruct r; by eexists. Qed.

(** The two [except] clauses of an iteration, evaluated. *)
Lemma iteration_unfold self w :
  iteration self w =
  match loop_body self w with
  | (t, Ok f) => (t, Ok f)
  | (t, Raise KeyboardInterrupt) => (t ++ [EvPrint LogStoppedByUser], Ok Break)
  | (t, Raise e) =>
      (t ++ [EvPrint (LogLoopError e); EvSleep],
       if w_interrupt w then Raise KeyboardInterrupt else Ok Next)
  end.
Proof.
  unfold iteration, sleep.
  destruct (loop_body self w) as [t [f|e]]; [reflexivity|].
  destruct e; destruct (w_interrupt w); reflexivity.
Qed.

Lemma iteration_starts self w :
  starts_with (EvCloudWatch "HTTPCode_Target_5XX_Count") (trace (iteration self w)).
Proof.
  assert (H : starts_with (EvCloudWatch "HTTPCode_Target_5XX_Count")
                (trace (loop_body self w))).
  { apply starts_with_bind, starts_with_try_except, starts_with_bind,
      get_metric_statistics_starts. }
  rewrite iteration_unfold.
  destruct (loop_body self w) as [t [f|e]]; simpl in *; [assumption|].
  destruct e; simpl; by apply starts_with_app.
Qed.

Lemma trace_monitor self d ticks :
  trace (monitor self d ticks) =
  EvPrint (LogStarting d) :: trace (while_loop self ticks ;;; print LogCompleted).
Proof. unfold monitor. rewrite trace_bind. reflexivity. Qed.

(** C7, amended.  When a CloudWatch call raises while the baseline is read,
    [__init__] prints the error and takes the baseline error rate 0 and CPU
    usage 0; it does not raise, and the session goes on into the monitoring
    loop with that baseline, whose first iteration starts by fetching the
    current metrics. *)
Theorem init_unreachable_baseline_defaults
    (key : string) (url : option string) (error_answer cpu_answer : cw_response)
    (Hdown : raises error_answer \/ raises cpu_answer) :
  let self := monitor_with_default_baseline key url in
  exists t e,
    init key url error_answer cpu_answer =
      (t ++ [EvPrint (LogBaselineError e)], Ok self)
    /\ (forall d ticks,
          main key url error_answer cpu_answer d ticks =
            ((t ++ [EvPrint (LogBaselineError e)]) ++ trace (monitor self d ticks),
             outcome (monitor self d ticks)))
    /\ (forall d w rest, exists t',
          trace (monitor self d (w :: rest)) =
            EvPrint (LogStarting d)
              :: EvCloudWatch "HTTPCode_Target_5XX_Count" :: t').
Proof.
  intros self.
  assert (Hinit : exists t e,
             init key url error_answer cpu_answer =
               (t ++ [EvPrint (LogBaselineError e)], Ok self)).
  { unfold init, get_baseline_metrics.
    destruct error_answer as [msg|values]; simpl.
    - by exists [EvCloudWatch "HTTPCode_Target_5XX_Count"], (Failure msg).
    - destruct cpu_answer as [msg|values']; simpl.
      + by exists [EvCloudWatch "HTTPCode_Target_5XX_Count";
                   EvCloudWatch "CPUUtilization"], (Failure msg).
      + simpl in Hdown. tauto. }
  destruct Hinit as (t & e & Hinit). exists t, e.
  split; [assumption|].
  split.
  - intros d ticks. unfold main. rewrite Hinit. simpl.
    by destruct (monitor self d ticks).
  - intros d w rest.
    assert (H : starts_with (EvCloudWatch "HTTPCode_Target_5XX_Count")
                  (trace (while_loop self (w :: rest) ;;; print LogCompleted))).
    { simpl. apply starts_with_bind, starts_with_bind, iteration_starts. }
    destruct H as [t' Ht']. exists t'.
    rewrite trace_monitor. by rewrite Ht'.
Qed.

(** C7 amended, with CloudWatch unreachable for both baseline calls. *)
Lemma init_unreachable_baseline_defaults_witness :
  exists t e,
    init "key" None (CwRaise "unreachable") (CwRaise "unreachable") =
      (t ++ [EvPrint (LogBaselineError e)],
       Ok (monitor_with_default_baseline "key" None)).
Proof.
  destruct (init_unreachable_baseline_defaults "key" None
              (CwRaise "unreachable") (CwRaise "unreachable"))
    as (t & e & H & _).
  - left. exact I.
  - by exists t, e.
Defined.

(** ** Calls of the rollback executor in a trace *)

Lemma rollback_calls_app t t' :
  rollback_calls (t ++ t') = (rollback_calls t + rollback_calls t')%nat.
Proof. unfold rollback_calls. by rewrite List.filter_app, length_app. Qed.

Lemma rollback_free_bind {A B} (m : M A) (f : A -> M B) :
  rollback_free m ->
  (forall a, outcome m = Ok a -> rollback_free (f a)) ->
  rollback_free (bind m f).
Proof.
  unfold rollback_free. intros Hm Hf. rewrite trace_bind.
  destruct (outcome m) as [a|e]; [|assumption].
  rewrite rollback_calls_app, Hm. by apply Hf.
Qed.

Lemma rollback_free_try_except {A} (m : M A) (h : exn -> M A) :
  rollback_free m -> (forall e, rollback_free (h e)) ->
  rollback_free (try_except m h).
Proof.
  unfold rollback_free. intros Hm Hh.
  destruct m as [t [a|e]]; simpl in *; [assumption|].
  destruct (is_Exception e); [|assumption].
  specialize (Hh e). destruct (h e) as [t' r]. simpl in *.
  by rewrite rollback_calls_app, Hm.
Qed.

Lemma rollback_free_get_metric_statistics name r :
  rollback_free (get_metric_statistics name r).
Proof. by destruct r. Qed.

Lemma rollback_free_get_current_metrics w :
  rollback_free (get_current_metrics w).
Proof.
  apply rollback_free_try_except; [|reflexivity].
  repeat (apply rollback_free_bind;
          [apply rollback_free_get_metric_statistics | intros ? _]).
  reflexivity.
Qed.

Lemma rollback_free_detect_anomalies self m w :
  rollback_free (detect_anomalies self m w).
Proof.
  destruct m as [m|]; [|reflexivity].
  unfold detect_anomalies. rewrite error_change_eq.
  by destruct (w_openai w).
Qed.

Lemma rollback_free_send_alert self w msg severity :
  rollback_free (send_alert self w msg severity).
Proof.
  unfold send_alert.
  destruct (webhook_configured self); [|reflexivity].
  destruct (py_hashable severity); [|reflexivity].
  simpl. by destruct (w_slack w msg).
Qed.

Lemma rollback_free_sleep w : rollback_free (sleep w).
Proof. unfold sleep. by destruct (w_interrupt w). Qed.

Lemma rollback_free_py_get v key default : rollback_free (py_get v key default).
Proof. by destruct v. Qed.

Lemma rollback_free_py_join v : rollback_free (py_join v).
Proof. unfold py_join. by destruct (py_joinable v). Qed.

Lemma rollback_free_anomaly_detected a : rollback_free (anomaly_detected a).
Proof.
  destruct a as [v|]; [|reflexivity]. unfold anomaly_detected.
  destruct (py_truthy v); [|reflexivity]. by destruct v.
Qed.

(** [send_alert] with a string as severity returns. *)
Lemma send_alert_returns self w msg severity :
  py_hashable severity = true ->
  outcome (send_alert self w msg severity) = Ok tt.
Proof.
  intros Hh. unfold send_alert.
  destruct (webhook_configured self); [|reflexivity].
  rewrite Hh. simpl. by destruct (w_slack w msg).
Qed.

Lemma send_alert_no_evaluation self w msg severity :
  Forall (fun ev => is_evaluation_event ev = false)
         (trace (send_alert self w msg severity)).
Proof.
  unfold send_alert.
  destruct (webhook_configured self); [|by repeat constructor].
  destruct (py_hashable severity); [|by repeat constructor].
  simpl. destruct (w_slack w msg); by repeat constructor.
Qed.

(** [rollback_deployment] always returns a boolean; its trace is the
    listing call followed by no further evaluation event. *)
Lemma rollback_deployment_shape w :
  exists rest rolled_back,
    rollback_deployment w = (EvListTaskDefinitions :: rest, Ok rolled_back)
    /\ Forall (fun ev => is_evaluation_event ev = false) rest.
Proof.
  unfold rollback_deployment.
  destruct (w_ecs_list w) as [msg|arns]; simpl.
  { eexists _, _. split; [reflexivity|]. by repeat constructor. }
  destruct (length arns <? 2)%nat; simpl.
  { eexists _, _. split; [reflexivity|]. by repeat constructor. }
  destruct (arns !! 1%nat) as [previous|]; simpl.
  - destruct (w_ecs_update w previous); simpl;
      (eexists _, _; split; [reflexivity|]; by repeat constructor).
  - eexists _, _. split; [reflexivity|]. by repeat constructor.
Qed.

(** The rollback step: the announcing alert, one run of the executor, the
    alert that reports its result, then [break]. *)
Lemma rollback_step_shape self w :
  exists rest rolled_back,
    rollback_deployment w = (EvListTaskDefinitions :: rest, Ok rolled_back)
    /\ Forall (fun ev => is_evaluation_event ev = false) rest
    /\ rollback_step self w =
         (trace (send_alert self w MsgInitiatingRollback (JStr "CRITICAL"))
            ++ EvListTaskDefinitions :: rest
            ++ trace (send_alert self w (result_message rolled_back)
                        (result_severity rolled_back)),
          Ok Break).
Proof.
  destruct (rollback_deployment_shape w) as (rest & rolled_back & Hrb & Hrest).
  exists rest, rolled_back. split; [assumption|]. split; [assumption|].
  unfold rollback_step. rewrite Hrb.
  pose proof (send_alert_returns self w MsgInitiatingRollback (JStr "CRITICAL")
                eq_refl) as H1.
  destruct (send_alert self w MsgInitiatingRollback (JStr "CRITICAL"))
    as [t1 r1]. simpl in H1. subst r1. simpl.
  assert (H2 : outcome (send_alert self w (result_message rolled_back)
                          (result_severity rolled_back)) = Ok tt).
  { apply send_alert_returns. by destruct rolled_back. }
  unfold result_message, result_severity in *.
  destruct rolled_back;
    match goal with
    | |- context [send_alert ?s ?w ?m ?v] =>
        destruct (send_alert s w m v) as [t2 r2]
    end; simpl in *; subst r2; simpl; by rewrite app_nil_r.
Qed.

(** ** One iteration either calls no rollback or ends with the rollback step *)

Section Iteration.
Variable self : DeploymentMonitor.
Variable w : World.

Lemma at_most_once_bind {A} (m : M A) (f : A -> M flow) :
  rollback_free m ->
  (forall a, outcome m = Ok a -> at_most_once self w (f a)) ->
  at_most_once self w (bind m f).
Proof.
  intros Hm Hf. destruct m as [t [a|e]]; [|by left].
  destruct (Hf a eq_refl) as [Hfree | [Htrig (pre & Heq & Hpre)]].
  - left. apply rollback_free_bind; [assumption|].
    by intros a' [= <-].
  - right. split; [assumption|]. exists (t ++ pre).
    simpl. rewrite Heq. split; [by rewrite app_assoc|].
    rewrite rollback_calls_app. unfold rollback_free in Hm. simpl in Hm.
    by rewrite Hm.
Qed.

(** The end of the loop body: [break] stays, otherwise the iteration
    sleeps. *)
Lemma at_most_once_then_sleep (m : M flow) :
  at_most_once self w m ->
  at_most_once self w (after <- m ;;
                match after with
                | Break => ret Break
                | Next => sleep w ;;; ret Next
                end).
Proof.
  intros [Hfree | [Htrig (pre & -> & Hpre)]].
  - left. apply rollback_free_bind; [assumption|].
    intros [|] _; [|reflexivity].
    apply rollback_free_bind; [apply rollback_free_sleep | reflexivity].
  - right. split; [assumption|]. exists pre. simpl.
    by rewrite app_nil_r.
Qed.

Lemma detect_anomalies_Some metrics v :
  outcome (detect_anomalies self (Some metrics) w) = Ok (Some v) ->
  w_openai w = AiJson v.
Proof.
  unfold detect_anomalies. rewrite error_change_eq.
  destruct (w_openai w); simpl; congruence.
Qed.

Lemma anomaly_detected_true v :
  outcome (anomaly_detected (Some v)) = Ok true ->
  exists d, v = JObj d /\ py_truthy (dict_get d "anomaly_detected" JNull) = true.
Proof.
  unfold anomaly_detected. destruct (py_truthy v); [|discriminate].
  destruct v; try discriminate. simpl. intros [= H]. eauto.
Qed.

Lemma at_most_once_anomaly_block d :
  w_openai w = AiJson (JObj d) ->
  py_truthy (dict_get d "anomaly_detected" JNull) = true ->
  at_most_once self w (anomaly_block self w (JObj d)).
Proof.
  intros Hai Hdet. unfold anomaly_block.
  apply at_most_once_bind; [reflexivity | intros severity [= <-]].
  apply at_most_once_bind; [reflexivity | intros causes [= <-]].
  apply at_most_once_bind; [reflexivity | intros recommendations [= <-]].
  apply at_most_once_bind; [reflexivity | intros rollback_recommended [= <-]].
  apply at_most_once_bind; [apply rollback_free_py_join | intros _ _].
  apply at_most_once_bind; [apply rollback_free_py_join | intros _ _].
  apply at_most_once_bind; [apply rollback_free_send_alert | intros _ _].
  destruct (py_eq_str _ _ && py_truthy _) eqn:Hcond; [|by left].
  apply andb_true_iff in Hcond as [Hsev Hrb].
  right. split.
  - exists d. split; [assumption|]. split; [assumption|]. split; [|assumption].
    destruct (dict_get d "severity" (JStr "MEDIUM")); try discriminate.
    simpl in Hsev. apply String.eqb_eq in Hsev. by subst.
  - exists []. split; [|reflexivity].
    destruct (rollback_step_shape self w) as (rest & rb & _ & _ & Heq).
    by rewrite Heq.
Qed.

Lemma at_most_once_loop_body : at_most_once self w (loop_body self w).
Proof.
  unfold loop_body.
  apply at_most_once_bind; [apply rollback_free_get_current_metrics|].
  intros [metrics|] _.
  2: { left. apply rollback_free_bind;
         [apply rollback_free_sleep | reflexivity]. }
  apply at_most_once_bind; [reflexivity | intros _ _].
  apply at_most_once_bind.
  { destruct (check_thresholds self metrics);
      [reflexivity | apply rollback_free_send_alert]. }
  intros _ _.
  apply at_most_once_bind; [apply rollback_free_detect_anomalies|].
  intros anomaly_analysis Hda.
  apply at_most_once_bind; [apply rollback_free_anomaly_detected|].
  intros detected Hdet.
  apply at_most_once_then_sleep.
  destruct anomaly_analysis as [v|]; [|by left].
  destruct detected; [|by left].
  apply detect_anomalies_Some in Hda.
  apply anomaly_detected_true in Hdet as (d & -> & Hdet).
  by apply at_most_once_anomaly_block.
Qed.

Lemma at_most_once_iteration : at_most_once self w (iteration self w).
Proof.
  rewrite iteration_unfold.
  destruct at_most_once_loop_body as [Hfree | [Htrig (pre & Heq & Hpre)]].
  - left. unfold rollback_free in *.
    destruct (loop_body self w) as [t [f|e]]; simpl in *; [assumption|].
    destruct e; simpl; rewrite rollback_calls_app, Hfree; reflexivity.
  - right. split; [assumption|]. exists pre. by rewrite Heq.
Qed.
End Iteration.

(** ** The whole session *)

Lemma rollback_calls_no_evaluation t :
  Forall (fun ev => is_evaluation_event ev = false) t -> rollback_calls t = 0%nat.
Proof.
  induction 1 as [|ev t Hev _ IH]; [reflexivity|].
  unfold rollback_calls in *. simpl.
  destruct ev; simpl in *; try discriminate; assumption.
Qed.

(** A trace with one rollback call splits around it in one way only. *)
Lemma split_at_rollback_call pre post pre0 post0 :
  pre ++ EvListTaskDefinitions :: post = pre0 ++ EvListTaskDefinitions :: post0 ->
  rollback_calls pre0 = 0%nat -> rollback_calls post0 = 0%nat ->
  pre = pre0 /\ post = post0.
Proof.
  revert pre. induction pre0 as [|a pre0 IH]; intros [|b pre] Heq Hpre Hpost;
    simpl in Heq.
  - by injection Heq as ->.
  - injection Heq as -> <-.
    rewrite rollback_calls_app in Hpost. unfold rollback_calls in Hpost.
    simpl in Hpost. lia.
  - injection Heq as <- _. discriminate Hpre.
  - injection Heq as -> Heq.
    assert (Hpre' : rollback_calls pre0 = 0%nat).
    { unfold rollback_calls in *. simpl in Hpre.
      destruct (is_rollback_call a); [discriminate | assumption]. }
    destruct (IH pre Heq Hpre' Hpost) as [-> ->]. by split.
Qed.

(** The loop either never calls the rollback executor, or it ends with the
    rollback step of one of its iterations. *)
Lemma while_loop_shape self ticks :
  rollback_free (while_loop self ticks)
  \/ exists pre w,
       w ∈ ticks /\ classifier_triggers w
       /\ while_loop self ticks = (pre ++ trace (rollback_step self w), Ok tt)
       /\ rollback_calls pre = 0%nat.
Proof.
  induction ticks as [|w rest IH]; [by left|].
  simpl.
  destruct (at_most_once_iteration self w)
    as [Hfree | [Htrig (pre & Heq & Hpre)]].
  - unfold rollback_free in Hfree.
    destruct (iteration self w) as [t [[|]|e]] eqn:Hit; simpl in *;
      [| left; unfold rollback_free; simpl; by rewrite app_nil_r
       | by left].
    destruct IH as [IH | (pre & w' & Hin & Htrig & Heq & Hpre)].
    + left. unfold rollback_free in *.
      destruct (while_loop self rest) as [t' r']. simpl in *.
      by rewrite rollback_calls_app, Hfree.
    + right. exists (t ++ pre), w'.
      split; [apply elem_of_cons; by right|]. split; [assumption|].
      rewrite Heq. split; [by rewrite app_assoc|].
      by rewrite rollback_calls_app, Hfree.
  - right. exists pre, w.
    split; [apply elem_of_cons; by left|]. split; [assumption|].
    rewrite Heq. simpl. by rewrite app_nil_r.
Qed.

Lemma monitor_shape self d ticks :
  rollback_free (monitor self d ticks)
  \/ exists pre w,
       w ∈ ticks /\ classifier_triggers w
       /\ monitor self d ticks =
            (pre ++ trace (rollback_step self w) ++ [EvPrint LogCompleted], Ok tt)
       /\ rollback_calls pre = 0%nat.
Proof.
  unfold monitor.
  destruct (while_loop_shape self ticks)
    as [Hfree | (pre & w & Hin & Htrig & Heq & Hpre)].
  - left. apply rollback_free_bind; [reflexivity | intros _ _].
    apply rollback_free_bind; [assumption | reflexivity].
  - right. exists (EvPrint (LogStarting d) :: pre), w.
    split; [assumption|]. split; [assumption|].
    rewrite Heq. simpl. split; [by rewrite <- app_assoc|].
    exact Hpre.
Qed.

(** C1.  A session invokes the rollback executor at most once.  When it
    does, what follows the invocation is the rest of that one run of the
    executor, the alert reporting its result (success or failure alike)
    and the final "Monitoring completed": no further metrics fetch,
    classifier call, sleep or rollback call, and the session returns. *)
Theorem monitor_rollback_at_most_once
    (self : DeploymentMonitor) (d : Z) (ticks : list World) :
  (rollback_calls (trace (monitor self d ticks)) <= 1)%nat
  /\ (forall pre post,
        trace (monitor self d ticks) = pre ++ EvListTaskDefinitions :: post ->
        exists w rest rolled_back,
          w ∈ ticks
          /\ rollback_deployment w =
               (EvListTaskDefinitions :: rest, Ok rolled_back)
          /\ post =
               rest
                 ++ trace (send_alert self w (result_message rolled_back)
                             (result_severity rolled_back))
                 ++ [EvPrint LogCompleted]
          /\ Forall (fun ev => is_evaluation_event ev = false) post
          /\ outcome (monitor self d ticks) = Ok tt).
Proof.
  destruct (monitor_shape self d ticks)
    as [Hfree | (pre0 & w & Hin & _ & Heq & Hpre0)].
  - unfold rollback_free in Hfree. split; [lia|].
    intros pre post Hsplit. rewrite Hsplit, rollback_calls_app in Hfree.
    unfold rollback_calls in Hfree. simpl in Hfree. lia.
  - destruct (rollback_step_shape self w)
      as (rest & rolled_back & Hrb & Hrest & Hstep).
    rewrite Hstep in Heq. simpl in Heq.
    set (a := trace (send_alert self w MsgInitiatingRollback (JStr "CRITICAL")))
      in *.
    set (b := trace (send_alert self w (result_message rolled_back)
                       (result_severity rolled_back))) in *.
    assert (Ha : rollback_calls a = 0%nat)
      by apply rollback_free_send_alert.
    assert (Hpost : Forall (fun ev => is_evaluation_event ev = false)
                      (rest ++ b ++ [EvPrint LogCompleted])).
    { apply Forall_app. split; [assumption|].
      apply Forall_app. split; [apply send_alert_no_evaluation|].
      by repeat constructor. }
    assert (Htrace : trace (monitor self d ticks) =
              (pre0 ++ a) ++ EvListTaskDefinitions
                :: (rest ++ b ++ [EvPrint LogCompleted])).
    { rewrite Heq. simpl. rewrite <- !app_assoc. simpl.
      by rewrite <- !app_assoc. }
    split.
    + rewrite Htrace, !rollback_calls_app, Hpre0, Ha.
      change (rollback_calls (EvListTaskDefinitions :: ?t))
        with (S (rollback_calls t)).
      by rewrite (rollback_calls_no_evaluation _ Hpost).
    + intros pre post Hsplit. rewrite Htrace in Hsplit. symmetry in Hsplit.
      apply split_at_rollback_call in Hsplit as [_ ->].
      * exists w, rest, rolled_back. rewrite Heq. by repeat split.
      * by rewrite rollback_calls_app, Hpre0, Ha.
      * by apply rollback_calls_no_evaluation.
Qed.

(** C1, on a session of three iterations whose first two verdicts both ask
    for a rollback: the executor runs once, in the first iteration. *)
Lemma monitor_rollback_at_most_once_witness :
  rollback_calls (trace (monitor example_monitor 30 example_ticks)) = 1%nat
  /\ exists w' rest rolled_back,
       w' ∈ example_ticks
       /\ rollback_deployment w' = (EvListTaskDefinitions :: rest, Ok rolled_back)
       /\ drop 11 (trace (monitor example_monitor 30 example_ticks)) =
            rest
              ++ trace (send_alert example_monitor w' (result_message rolled_back)
                          (result_severity rolled_back))
              ++ [EvPrint LogCompleted]
       /\ Forall (fun ev => is_evaluation_event ev = false)
                 (drop 11 (trace (monitor example_monitor 30 example_ticks)))
       /\ outcome (monitor example_monitor 30 example_ticks) = Ok tt.
Proof.
  split; [vm_compute; reflexivity|].
  destruct (monitor_rollback_at_most_once example_monitor 30 example_ticks)
    as [_ H].
  apply (H (take 10 (trace (monitor example_monitor 30 example_ticks)))).
  vm_compute. reflexivity.
Defined.

(** C2.  The prompt asks the classifier for booleans (lines 166, 170, 174),
    but line 308 tests the truth value of ['rollback_recommended'] instead
    of comparing it with [True]: at a verdict with severity CRITICAL whose
    ['rollback_recommended'] is the string "NO", the iteration invokes the
    rollback executor and switches the service, although the verdict does
    not have rollback_recommended = true. *)
Lemma rollback_on_string_recommendation :
  w_openai string_verdict_world = AiJson (JObj (critical_verdict (JStr "NO")))
  /\ critical_verdict (JStr "NO") !! "rollback_recommended" = Some (JStr "NO")
  /\ critical_verdict (JStr "NO") !! "rollback_recommended" <> Some (JBool true)
  /\ rollback_calls (trace (iteration example_monitor string_verdict_world)) = 1%nat
  /\ EvUpdateService "task:6" ∈ trace (iteration example_monitor string_verdict_world).
Proof.
  split; [reflexivity|].
  assert (Hrb : critical_verdict (JStr "NO") !! "rollback_recommended"
                = Some (JStr "NO"))
    by (vm_compute; reflexivity).
  split; [assumption|].
  split; [rewrite Hrb; discriminate|].
  split; [vm_compute; reflexivity|].
  apply list_elem_of_In. vm_compute. tauto.
Qed.

Lemma dict_get_not_default d key default v :
  dict_get d key default = v -> v <> default -> d !! key = Some v.
Proof.
  unfold dict_get. destruct (d !! key); intros <- H; congruence.
Qed.

(** The rollback condition as line 308 has it.  An iteration invokes the
    rollback executor only if the classifier returned, in that iteration, a
    JSON object whose ['anomaly_detected'] is true in Python's sense
    (neither absent, null, false, zero nor empty), whose ['severity'] is
    the string "CRITICAL" and whose ['rollback_recommended'] is present and
    true in that sense.  Whatever the metrics and the thresholds, an
    iteration without such a verdict invokes no rollback; in particular one
    in which the classifier failed does not. *)
Theorem rollback_only_on_truthy_critical_verdict
    (self : DeploymentMonitor) (w : World) :
  (rollback_calls (trace (iteration self w)) <> 0%nat ->
   exists d detected recommended,
     w_openai w = AiJson (JObj d)
     /\ d !! "anomaly_detected" = Some detected
     /\ py_truthy detected = true
     /\ d !! "severity" = Some (JStr "CRITICAL")
     /\ d !! "rollback_recommended" = Some recommended
     /\ py_truthy recommended = true)
  /\ (~ classifier_triggers w ->
      rollback_calls (trace (iteration self w)) = 0%nat)
  /\ (forall msg, w_openai w = AiRaise msg ->
                  rollback_calls (trace (iteration self w)) = 0%nat).
Proof.
  pose proof (at_most_once_iteration self w) as Honce.
  split; [|split].
  - intros Hcalls.
    destruct Honce as [Hfree | [(d & Hai & Hdet & Hsev & Hrb) _]];
      [contradiction|].
    exists d, (dict_get d "anomaly_detected" JNull),
      (dict_get d "rollback_recommended" (JBool false)).
    split; [assumption|].
    split.
    { apply (dict_get_not_default d _ JNull); [reflexivity|].
      intros Heq. rewrite Heq in Hdet. discriminate Hdet. }
    split; [assumption|].
    split.
    { apply (dict_get_not_default d _ (JStr "MEDIUM")); [assumption|].
      discriminate. }
    split; [|assumption].
    apply (dict_get_not_default d _ (JBool false)); [reflexivity|].
    intros Heq. rewrite Heq in Hrb. discriminate Hrb.
  - intros Hno. destruct Honce as [Hfree | [Htrig _]];
      [assumption | contradiction].
  - intros msg Hai. destruct Honce as [Hfree | [(d & Hai' & _) _]];
      [assumption | congruence].
Qed.

(** The rollback condition, at an iteration that rolls back. *)
Lemma rollback_only_on_truthy_critical_verdict_witness :
  exists d detected recommended,
    w_openai rollback_world = AiJson (JObj d)
    /\ d !! "anomaly_detected" = Some detected
    /\ py_truthy detected = true
    /\ d !! "severity" = Some (JStr "CRITICAL")
    /\ d !! "rollback_recommended" = Some recommended
    /\ py_truthy recommended = true.
Proof.
  destruct (rollback_only_on_truthy_critical_verdict
              example_monitor rollback_world) as [H _].
  apply H. vm_compute. discriminate.
Defined.

(** On verdicts that keep to the prompt, whose two flags are booleans, the
    condition is the one the prompt describes: the rollback executor is
    invoked only for detected = true, severity = CRITICAL and
    rollback_recommended = true. *)
Lemma rollback_only_on_true_flags
    (self : DeploymentMonitor) (w : World) (d : gmap string json)
    (Hai : w_openai w = AiJson (JObj d))
    (Hdetected : forall v, d !! "anomaly_detected" = Some v ->
                           exists b, v = JBool b)
    (Hrecommended : forall v, d !! "rollback_recommended" = Some v ->
                              exists b, v = JBool b)
    (Hcalls : rollback_calls (trace (iteration self w)) <> 0%nat) :
  d !! "anomaly_detected" = Some (JBool true)
  /\ d !! "severity" = Some (JStr "CRITICAL")
  /\ d !! "rollback_recommended" = Some (JBool true).
Proof.
  destruct (rollback_only_on_truthy_critical_verdict self w) as [H _].
  destruct (H Hcalls) as (d' & det & rec & Hai' & Hd & Hdt & Hs & Hr & Hrt).
  rewrite Hai in Hai'. injection Hai' as <-.
  destruct (Hdetected det Hd) as [b ->].
  destruct (Hrecommended rec Hr) as [b' ->].
  simpl in Hdt, Hrt. subst. by repeat split.
Qed.

(** ** Defaults for the fields of the verdict *)

Lemma bind_ret_l {A B} (a : A) (f : A -> M B) : bind (ret a) f = f a.
Proof. unfold bind, ret. by destruct (f a). Qed.

Lemma bind_returns {A B} (m : M A) (a : A) (b : B) :
  outcome m = Ok a -> bind m (fun _ => ret b) = (trace m, Ok b).
Proof.
  destruct m as [t r]. simpl. intros ->. by rewrite app_nil_r.
Qed.

(** C10.  In the block that handles a detected anomaly, a verdict without
    ['severity'] is handled with the severity "MEDIUM" and a verdict
    without ['rollback_recommended'] with the recommendation [False]: the
    anomaly alert carries these values, and the block ends without starting
    the rollback.  An iteration whose verdict lacks either field invokes no
    rollback. *)
Theorem verdict_defaults_prevent_rollback
    (self : DeploymentMonitor) (w : World) (d : gmap string json) :
  let causes := dict_get d "causes" (JArr []) in
  let recommendations := dict_get d "recommendations" (JArr []) in
  (d !! "severity" = None ->
   py_joinable causes = true -> py_joinable recommendations = true ->
   anomaly_block self w (JObj d) =
     (trace (send_alert self w
               (MsgAnomaly (JStr "MEDIUM") causes recommendations
                  (dict_get d "rollback_recommended" (JBool false)))
               (JStr "MEDIUM")),
      Ok Next))
  /\ (d !! "rollback_recommended" = None ->
      py_joinable causes = true -> py_joinable recommendations = true ->
      let severity := dict_get d "severity" (JStr "MEDIUM") in
      trace (anomaly_block self w (JObj d)) =
        trace (send_alert self w
                 (MsgAnomaly severity causes recommendations (JBool false))
                 severity)
      /\ outcome (anomaly_block self w (JObj d)) <> Ok Break)
  /\ (d !! "severity" = None \/ d !! "rollback_recommended" = None ->
      rollback_free (anomaly_block self w (JObj d))
      /\ (w_openai w = AiJson (JObj d) ->
          rollback_calls (trace (iteration self w)) = 0%nat)).
Proof.
  intros causes recommendations.
  split; [|split].
  - intros Hsev Hc Hr. unfold anomaly_block. cbn [py_get].
    rewrite !bind_ret_l. unfold py_join.
    fold causes recommendations. rewrite Hc, Hr, !bind_ret_l.
    assert (Hs : dict_get d "severity" (JStr "MEDIUM") = JStr "MEDIUM")
      by (unfold dict_get; by rewrite Hsev).
    rewrite !Hs. cbn [py_eq_str String.eqb Ascii.eqb Bool.eqb andb].
    apply (bind_returns _ tt). by apply send_alert_returns.
  - intros Hrb Hc Hr severity. unfold anomaly_block. cbn [py_get].
    rewrite !bind_ret_l. unfold py_join.
    fold causes recommendations severity. rewrite Hc, Hr, !bind_ret_l.
    assert (Hd : dict_get d "rollback_recommended" (JBool false) = JBool false)
      by (unfold dict_get; by rewrite Hrb).
    rewrite !Hd. cbn [py_truthy]. rewrite andb_false_r.
    destruct (send_alert self w _ severity) as [t [[]|e]]; simpl.
    + by rewrite app_nil_r.
    + by split.
  - intros Hmissing.
    assert (Hno : ~ verdict_triggers d).
    { intros (_ & Hsev & Hrb). unfold dict_get in *.
      destruct Hmissing as [H | H]; rewrite H in *; discriminate. }
    split.
    + unfold anomaly_block. cbn [py_get]. rewrite !bind_ret_l.
      apply rollback_free_bind; [apply rollback_free_py_join | intros _ _].
      apply rollback_free_bind; [apply rollback_free_py_join | intros _ _].
      apply rollback_free_bind; [apply rollback_free_send_alert | intros _ _].
      destruct (py_eq_str _ _ && py_truthy _) eqn:Hcond; [|reflexivity].
      exfalso. apply andb_true_iff in Hcond as [Hsev Hrb].
      unfold dict_get in Hsev, Hrb.
      destruct Hmissing as [H | H]; rewrite H in *; discriminate.
    + intros Hai.
      destruct (at_most_once_iteration self w)
        as [Hfree | [(d' & Hai' & Htrig) _]]; [assumption|].
      rewrite Hai in Hai'. injection Hai' as <-. contradiction.
Qed.

(** C10, at a verdict without severity. *)
Lemma verdict_defaults_prevent_rollback_witness :
  rollback_calls
    (trace (iteration (monitor_with_default_baseline "key" None)
              (world_with_verdict (JObj verdict_without_severity)
                 ["task:7"; "task:6"]))) = 0%nat.
Proof.
  destruct (verdict_defaults_prevent_rollback
              (monitor_with_default_baseline "key" None)
              (world_with_verdict (JObj verdict_without_severity)
                 ["task:7"; "task:6"])
              verdict_without_severity) as (_ & _ & H).
  apply H; [left; vm_compute; reflexivity | reflexivity].
Defined.

(** * Further properties of the methods *)

(** ** [send_alert] *)



(** ** [get_baseline_metrics] and [get_current_metrics] *)

(** X2.  [get_baseline_metrics] never raises.  When both calls return, the
    baseline holds the last datapoint of each answer (0 for an answer
    without datapoints); when either call raises, both fields are 0, also
    the error rate that the first call had returned; when the first call
    raises, the second is not made. *)
Theorem get_baseline_metrics_all_or_nothing
    (error_answer cpu_answer : cw_response) :
  outcome (get_baseline_metrics error_answer cpu_answer) =
    Ok match error_answer, cpu_answer with
       | CwDatapoints e, CwDatapoints c =>
           {| b_error_rate := last_or_zero e; b_cpu_usage := last_or_zero c |}
       | _, _ => {| b_error_rate := 0; b_cpu_usage := 0 |}
       end
  /\ List.filter is_cloudwatch
       (trace (get_baseline_metrics error_answer cpu_answer)) =
       match error_answer with
       | CwRaise _ => [EvCloudWatch "HTTPCode_Target_5XX_Count"]
       | CwDatapoints _ =>
           [EvCloudWatch "HTTPCode_Target_5XX_Count";
            EvCloudWatch "CPUUtilization"]
       end.
Proof.
  unfold get_baseline_metrics.
  destruct error_answer, cpu_answer; by split.
Qed.

(** X3.  [get_current_metrics] never raises.  It makes its four calls in
    order and stops at the first one that raises: then it prints the error
    and returns [None], whatever the earlier calls returned. *)
Theorem get_current_metrics_stops_at_first_failure (w : World) :
  let n := leading_answers (current_answers w) in
  List.filter is_cloudwatch (trace (get_current_metrics w)) =
    EvCloudWatch <$> take (S n) metric_names
  /\ (exists r, outcome (get_current_metrics w) = Ok r)
  /\ ((n < 4)%nat ->
      exists msg,
        current_answers w !! n = Some (CwRaise msg)
        /\ get_current_metrics w =
             ((EvCloudWatch <$> take (S n) metric_names)
                ++ [EvPrint (LogMetricsError (Failure msg))],
              Ok None))
  /\ (n = 4%nat ->
      exists m, get_current_metrics w = (EvCloudWatch <$> metric_names, Ok (Some m))).
Proof.
  unfold current_answers, get_current_metrics.
  destruct (w_5xx_count w) as [m1|e1]; simpl.
  { repeat split; eauto; intros; try lia; eauto. }
  destruct (w_response_time w) as [m2|e2]; simpl.
  { repeat split; eauto; intros; try lia; eauto. }
  destruct (w_cpu w) as [m3|e3]; simpl.
  { repeat split; eauto; intros; try lia; eauto. }
  destruct (w_memory w) as [m4|e4]; simpl.
  { repeat split; eauto; intros; try lia; eauto. }
  repeat split; eauto; intros; try lia; eauto.
Qed.

(** X3, with CloudWatch failing at the third call. *)
Lemma get_current_metrics_stops_at_first_failure_witness :
  exists msg,
    current_answers cpu_failure_world !! 2%nat = Some (CwRaise msg)
    /\ get_current_metrics cpu_failure_world =
         ([EvCloudWatch "HTTPCode_Target_5XX_Count";
           EvCloudWatch "TargetResponseTime";
           EvCloudWatch "CPUUtilization";
           EvPrint (LogMetricsError (Failure msg))],
          Ok None).
Proof.
  destruct (get_current_metrics_stops_at_first_failure cpu_failure_world)
    as (_ & _ & H & _).
  apply H. vm_compute. lia.
Defined.

(** ** [rollback_deployment] *)

(** X4.  [rollback_deployment] never raises: it returns a boolean.  It
    returns [True] exactly when the listing returned at least two
    revisions and the platform accepted the switch to the second one.  When
    the listing itself raises, the error is printed, no [update_service]
    call is made and the result is [False]. *)
Theorem rollback_deployment_result (w : World) :
  (exists rolled_back,
     outcome (rollback_deployment w) = Ok rolled_back
     /\ (rolled_back = true <->
         exists arns previous,
           w_ecs_list w = EcsArns arns /\ arns !! 1%nat = Some previous
           /\ w_ecs_update w previous = None))
  /\ (forall msg,
        w_ecs_list w = EcsRaise msg ->
        rollback_deployment w =
          ([EvListTaskDefinitions; EvPrint (LogRollbackError (Failure msg))],
           Ok false))
  /\ (length (List.filter is_update_service (trace (rollback_deployment w)))
      <= 1)%nat.
Proof.
  unfold rollback_deployment.
  destruct (w_ecs_list w) as [msg|arns] eqn:Hlist; simpl.
  { split; [|split; [intros ? [= <-]; reflexivity | lia]].
    exists false. split; [reflexivity|].
    split; [discriminate | intros (? & ? & [=] & _)]. }
  destruct arns as [|newest [|previous older]]; simpl.
  1,2: split; [|split; [discriminate | lia]];
       exists false; (split; [reflexivity|]);
       (split; [discriminate | intros (? & ? & [= <-] & [=] & _)]).
  destruct (w_ecs_update w previous) as [err|] eqn:Hupd; simpl.
  - split; [|split; [discriminate | lia]].
    exists false. split; [reflexivity|].
    split; [discriminate|].
    intros (? & ? & [= <-] & [= <-] & Hnone). congruence.
  - split; [|split; [discriminate | lia]].
    exists true. split; [reflexivity|].
    split; [|reflexivity]. intros _. by exists (newest :: previous :: older), previous.
Qed.

(** X4, with the listing unreachable. *)
Lemma rollback_deployment_result_witness :
  rollback_deployment
    {| w_utcnow_iso := ""; w_utcnow_str := "";
       w_5xx_count := CwDatapoints []; w_response_time := CwDatapoints [];
       w_cpu := CwDatapoints []; w_memory := CwDatapoints [];
       w_openai := AiRaise "timeout"; w_slack := fun _ => None;
       w_ecs_list := EcsRaise "AccessDenied"; w_ecs_update := fun _ => None;
       w_interrupt := false |}
  = ([EvListTaskDefinitions; EvPrint (LogRollbackError (Failure "AccessDenied"))],
     Ok false).
Proof.
  eapply rollback_deployment_result. reflexivity.
Defined.

(** ** [detect_anomalies] *)

Lemma detect_anomalies_call self w m :
  outcome (detect_anomalies self (Some m) w) =
    Ok match w_openai w with
       | AiJson v => Some v
       | AiRaise _ => None
       end
  /\ classifier_calls (trace (detect_anomalies self (Some m) w)) = 1%nat
  /\ exists p, head (trace (detect_anomalies self (Some m) w))
               = Some (EvOpenAI p).
Proof.
  unfold detect_anomalies. rewrite error_change_eq.
  destruct (w_openai w); simpl; repeat split; eauto.
Qed.

(** X5.  [detect_anomalies] never raises.  Without metrics it returns
    [None] and makes no call; with metrics it makes one call to the
    classifier, as its first action, and returns the parsed answer, or
    [None] after printing the error when the call or the parsing raised. *)
Theorem detect_anomalies_result
    (self : DeploymentMonitor) (w : World) :
  detect_anomalies self None w = ([], Ok None)
  /\ (forall m,
        outcome (detect_anomalies self (Some m) w) =
          Ok match w_openai w with
             | AiJson v => Some v
             | AiRaise _ => None
             end
        /\ classifier_calls (trace (detect_anomalies self (Some m) w)) = 1%nat
        /\ (exists p, head (trace (detect_anomalies self (Some m) w))
                      = Some (EvOpenAI p))
        /\ (forall msg, w_openai w = AiRaise msg ->
              last (trace (detect_anomalies self (Some m) w))
              = Some (EvPrint (LogAIError (Failure msg))))).
Proof.
  split; [reflexivity|].
  intros m. unfold detect_anomalies. rewrite error_change_eq.
  destruct (w_openai w) as [msg|v]; simpl.
  - repeat split; eauto. by intros ? [= <-].
  - repeat split; eauto. discriminate.
Qed.

(** X6.  The error-rate signal has the sign of the change: it is positive
    exactly when the current error rate is above the baseline and zero
    exactly when they agree.  For a baseline of at least 1 it is the
    relative change in percent; for a baseline of at most 1 (0 included)
    it is the difference times 100. *)
Theorem error_change_sign (self : DeploymentMonitor) (m : Metrics) :
  let current := m_error_rate m in
  let baseline := b_error_rate (baseline_metrics self) in
  exists signal,
    error_change self m = ([], Ok signal)
    /\ ((0 < signal)%Q <-> (baseline < current)%Q)
    /\ ((signal == 0)%Q <-> (current == baseline)%Q)
    /\ ((1 <= baseline)%Q ->
        (signal == (current - baseline) / baseline * 100)%Q)
    /\ ((baseline <= 1)%Q -> (signal == (current - baseline) * 100)%Q).
Proof.
  intros current baseline.
  exists (spec_error_signal current baseline).
  split; [apply error_change_eq|].
  unfold spec_error_signal. rewrite <- py_max_Qmax.
  pose proof (py_max_floor baseline) as Hfloor.
  assert (Hcases : (py_max baseline 1 == baseline /\ 1 <= baseline)%Q
                   \/ (py_max baseline 1 == 1 /\ baseline <= 1)%Q).
  { unfold py_max. destruct (Qgt_bool 1 baseline) eqn:E.
    - right. apply Qgt_bool_true in E. split; [reflexivity | lra].
    - left. apply Qgt_bool_false in E. split; [reflexivity | assumption]. }
  set (dv := py_max baseline 1) in *.
  assert (Hpos : (0 < dv)%Q) by lra.
  assert (Hinv : (0 < / dv)%Q) by (by apply Qinv_lt_0_compat).
  assert (Hsig : ((current - baseline) / dv * 100
                  == (current - baseline) * (100 * / dv))%Q)
    by (field; lra).
  assert (Hk : (0 < 100 * / dv)%Q) by nra.
  split; [|split; [|split]].
  - rewrite Hsig. split; intros H; nra.
  - rewrite Hsig. split; intros H; nra.
  - intros Hb. destruct Hcases as [[Heq _] | [Heq Hle]].
    + by rewrite Heq.
    + assert (Hb1 : (baseline == 1)%Q) by lra. by rewrite Heq, Hb1.
  - intros Hb. destruct Hcases as [[Heq Hge] | [Heq _]].
    + assert (Hb1 : (baseline == 1)%Q) by lra.
      rewrite Heq, Hb1. field.
    + rewrite Heq. field.
Qed.

(** X6, at a baseline of a half and a current error rate of 2. *)
Lemma error_change_sign_witness :
  exists signal,
    error_change
      {| openai_api_key := "key"; slack_webhook_url := None;
         thresholds := default_thresholds;
         baseline_metrics := {| b_error_rate := 1 # 2; b_cpu_usage := 20 |} |}
      {| m_error_rate := 2; m_avg_latency := 100; m_cpu_usage := 22;
         m_memory_usage := 30; m_timestamp := "" |}
    = ([], Ok signal)
    /\ (signal == (2 - (1 # 2)) * 100)%Q.
Proof.
  destruct (error_change_sign
      {| openai_api_key := "key"; slack_webhook_url := None;
         thresholds := default_thresholds;
         baseline_metrics := {| b_error_rate := 1 # 2; b_cpu_usage := 20 |} |}
      {| m_error_rate := 2; m_avg_latency := 100; m_cpu_usage := 22;
         m_memory_usage := 30; m_timestamp := "" |})
    as (signal & Heq & _ & _ & _ & H).
  exists signal. split; [exact Heq|].
  apply H. simpl. discriminate.
Defined.

(** ** Counting the events of a computation *)

Lemma count_events_app p t t' :
  count_events p (t ++ t') = (count_events p t + count_events p t')%nat.
Proof. unfold count_events. by rewrite List.filter_app, length_app. Qed.

Lemma count_events_bind {A B} p (m : M A) (f : A -> M B) :
  count_events p (trace (bind m f)) =
  (count_events p (trace m)
   + match outcome m with
     | Ok a => count_events p (trace (f a))
     | Raise _ => 0
     end)%nat.
Proof.
  rewrite trace_bind. destruct (outcome m); [apply count_events_app | lia].
Qed.

Lemma outcome_bind_eq {A B} (m : M A) (f : A -> M B) :
  outcome (bind m f) =
  match outcome m with
  | Ok a => outcome (f a)
  | Raise e => Raise e
  end.
Proof.
  destruct m as [t [a|e]]; simpl; [|reflexivity].
  by destruct (f a).
Qed.

Lemma silent_bind {A B} p (m : M A) (f : A -> M B) :
  silent p m -> (forall a, outcome m = Ok a -> silent p (f a)) ->
  silent p (bind m f).
Proof.
  unfold silent. intros Hm Hf. rewrite count_events_bind, Hm.
  destruct (outcome m) as [a|e]; [by apply Hf | reflexivity].
Qed.

Lemma raises_only_exceptions_bind {A B} (m : M A) (f : A -> M B) :
  raises_only_exceptions m ->
  (forall a, outcome m = Ok a -> raises_only_exceptions (f a)) ->
  raises_only_exceptions (bind m f).
Proof.
  intros Hm Hf e. rewrite outcome_bind_eq.
  destruct (outcome m) as [a|e'] eqn:Ho.
  - by apply Hf.
  - intros [= <-]. by apply Hm.
Qed.

Lemma quiet_bind {A B} (m : M A) (f : A -> M B) :
  quiet m -> (forall a, outcome m = Ok a -> quiet (f a)) -> quiet (bind m f).
Proof.
  intros (Hs & Hr & He) Hf. split; [|split].
  - apply (silent_bind is_sleep); [assumption | intros a Ha; apply (Hf a Ha)].
  - apply rollback_free_bind; [assumption | intros a Ha; apply (Hf a Ha)].
  - apply raises_only_exceptions_bind; [assumption|].
    intros a Ha. apply (Hf a Ha).
Qed.

Lemma quiet_ret {A} (a : A) : quiet (ret a).
Proof. by repeat split. Qed.

Lemma quiet_print l : quiet (print l).
Proof. by repeat split. Qed.

Lemma quiet_get_current_metrics w : quiet (get_current_metrics w).
Proof.
  unfold get_current_metrics.
  destruct (w_5xx_count w), (w_response_time w), (w_cpu w), (w_memory w);
    by repeat split.
Qed.

Lemma quiet_send_alert self w msg severity :
  quiet (send_alert self w msg severity).
Proof.
  unfold send_alert.
  destruct (webhook_configured self); [|by repeat split].
  destruct (py_hashable severity); simpl.
  - destruct (w_slack w msg); by repeat split.
  - repeat split. by intros e [= <-].
Qed.

Lemma quiet_detect_anomalies self m w : quiet (detect_anomalies self m w).
Proof.
  destruct m as [m|]; [|by repeat split].
  unfold detect_anomalies. rewrite error_change_eq.
  destruct (w_openai w); by repeat split.
Qed.

Lemma quiet_py_get v key default : quiet (py_get v key default).
Proof. destruct v; repeat split; by intros e [= <-]. Qed.

Lemma quiet_py_join v : quiet (py_join v).
Proof.
  unfold py_join. destruct (py_joinable v); repeat split; by intros e [= <-].
Qed.

Lemma quiet_anomaly_detected a : quiet (anomaly_detected a).
Proof.
  destruct a as [v|]; [|by repeat split]. unfold anomaly_detected.
  destruct (py_truthy v); [|by repeat split].
  destruct v; repeat split; by intros e [= <-].
Qed.

(** ** The pace of the loop *)

Lemma sleeps_no_evaluation t :
  Forall (fun ev => is_evaluation_event ev = false) t -> sleeps t = 0%nat.
Proof.
  induction 1 as [|ev t Hev _ IH]; [reflexivity|].
  unfold sleeps, count_events in *. simpl.
  destruct ev; simpl in *; try discriminate; assumption.
Qed.

Lemma staged_bind {A} (m : M A) (f : A -> M flow) :
  quiet m -> (forall a, outcome m = Ok a -> staged (f a)) ->
  staged (bind m f).
Proof.
  intros (Hs & Hr & He) Hf. unfold staged.
  rewrite outcome_bind_eq, trace_bind.
  destruct (outcome m) as [a|e] eqn:Ho.
  - unfold sleeps in *. rewrite count_events_app, rollback_calls_app, Hs, Hr.
    exact (Hf a eq_refl).
  - left. split; [assumption|]. split; [assumption|].
    right. exists e. split; [reflexivity | by apply He].
Qed.

Lemma staged_rollback_step self w : staged (rollback_step self w).
Proof.
  destruct (rollback_step_shape self w)
    as (rest & rolled_back & _ & Hrest & Hstep).
  right. rewrite Hstep. simpl.
  pose proof (quiet_send_alert self w MsgInitiatingRollback (JStr "CRITICAL"))
    as (Hs1 & Hr1 & _).
  pose proof (quiet_send_alert self w (result_message rolled_back)
                (result_severity rolled_back)) as (Hs2 & Hr2 & _).
  unfold sleeps in *.
  rewrite count_events_app, rollback_calls_app, Hs1, Hr1.
  change (EvListTaskDefinitions :: rest ++ ?b)
    with ([EvListTaskDefinitions] ++ rest ++ b).
  rewrite !count_events_app, !rollback_calls_app, Hs2, Hr2.
  rewrite (rollback_calls_no_evaluation _ Hrest).
  pose proof (sleeps_no_evaluation _ Hrest) as Hs. unfold sleeps in Hs.
  rewrite Hs. by repeat split.
Qed.

Lemma staged_anomaly_block self w v : staged (anomaly_block self w v).
Proof.
  unfold anomaly_block.
  do 4 (apply staged_bind; [apply quiet_py_get | intros ? _]).
  do 2 (apply staged_bind; [apply quiet_py_join | intros _ _]).
  apply staged_bind; [apply quiet_send_alert | intros _ _].
  destruct (py_eq_str _ _ && py_truthy _).
  - apply staged_rollback_step.
  - left. repeat split. by left.
Qed.

Lemma paced_sleep w : paced w (sleep w ;;; ret Next).
Proof. left. unfold sleep. by destruct (w_interrupt w). Qed.

Lemma paced_bind {A} w (m : M A) (f : A -> M flow) :
  quiet m -> (forall a, outcome m = Ok a -> paced w (f a)) ->
  paced w (bind m f).
Proof.
  intros (Hs & Hr & He) Hf. unfold paced.
  rewrite outcome_bind_eq, trace_bind.
  destruct (outcome m) as [a|e] eqn:Ho.
  - unfold sleeps in *. rewrite count_events_app, rollback_calls_app, Hs, Hr.
    exact (Hf a eq_refl).
  - right. right. split; [assumption|]. split; [assumption|].
    exists e. split; [reflexivity | by apply He].
Qed.

Lemma paced_then_sleep w (m : M flow) :
  staged m ->
  paced w (after <- m ;;
           match after with
           | Break => ret Break
           | Next => sleep w ;;; ret Next
           end).
Proof.
  unfold staged, paced. rewrite outcome_bind_eq, trace_bind.
  intros [(Hs & Hr & [Ho | (e & Ho & He)]) | (Hs & Hr & Ho)]; rewrite Ho.
  - left. unfold sleeps in *. rewrite count_events_app, rollback_calls_app, Hs, Hr.
    unfold sleep. by destruct (w_interrupt w).
  - right. right. eauto.
  - right. left. unfold sleeps in *.
    rewrite count_events_app, rollback_calls_app, Hs, Hr. by repeat split.
Qed.

Lemma paced_loop_body self w : paced w (loop_body self w).
Proof.
  unfold loop_body.
  apply paced_bind; [apply quiet_get_current_metrics|].
  intros [metrics|] _; [|apply paced_sleep].
  apply paced_bind; [apply quiet_print | intros _ _].
  apply paced_bind.
  { destruct (check_thresholds self metrics);
      [apply quiet_ret | apply quiet_send_alert]. }
  intros _ _.
  apply paced_bind; [apply quiet_detect_anomalies | intros anomaly_analysis _].
  apply paced_bind; [apply quiet_anomaly_detected | intros detected _].
  apply paced_then_sleep.
  destruct anomaly_analysis as [v|]; [|left; repeat split; by left].
  destruct detected; [apply staged_anomaly_block|].
  left. repeat split. by left.
Qed.

Lemma iteration_pace (self : DeploymentMonitor) (w : World) :
  (sleeps (trace (iteration self w)) = 0%nat
   /\ rollback_calls (trace (iteration self w)) = 1%nat
   /\ outcome (iteration self w) = Ok Break)
  \/ (sleeps (trace (iteration self w)) = 1%nat
      /\ rollback_calls (trace (iteration self w)) = 0%nat
      /\ if w_interrupt w
         then outcome (iteration self w) = Ok Break
              \/ outcome (iteration self w) = Raise KeyboardInterrupt
         else outcome (iteration self w) = Ok Next).
Proof.
  rewrite iteration_unfold.
  destruct (paced_loop_body self w)
    as [(Hs & Hr & Ho) | [(Hs & Hr & Ho) | (Hs & Hr & e & Ho & He)]];
    destruct (loop_body self w) as [t r]; simpl in *; subst r.
  - right. destruct (w_interrupt w); simpl.
    + unfold sleeps in *. rewrite count_events_app, rollback_calls_app, Hs, Hr.
      repeat split. by left.
    + by repeat split.
  - left. by repeat split.
  - right. unfold sleeps in *.
    destruct e; try discriminate He; simpl;
      rewrite count_events_app, rollback_calls_app, Hs, Hr;
      (repeat split; destruct (w_interrupt w); auto).
Qed.

(** X7.  Every iteration that the operator does not interrupt either
    sleeps once, or invokes the rollback executor once and leaves the loop
    without sleeping: the loop never goes to its next iteration without
    having slept, also when the body raised an exception, and it goes on
    to the next iteration exactly when it made no rollback. *)
Theorem iteration_sleeps_or_rolls_back
    (self : DeploymentMonitor) (w : World)
    (Hint : w_interrupt w = false) :
  (sleeps (trace (iteration self w))
   + rollback_calls (trace (iteration self w)) = 1)%nat
  /\ (rollback_calls (trace (iteration self w)) = 1%nat ->
      outcome (iteration self w) = Ok Break)
  /\ (rollback_calls (trace (iteration self w)) = 0%nat ->
      outcome (iteration self w) = Ok Next)
  /\ (outcome (iteration self w) = Ok Next ->
      sleeps (trace (iteration self w)) = 1%nat).
Proof.
  destruct (iteration_pace self w) as [(Hs & Hr & Ho) | (Hs & Hr & Ho)];
    rewrite Hs, Hr.
  - split; [reflexivity|]. split; [intros _; exact Ho|].
    split; [intros H0; discriminate H0 | intros HN; congruence].
  - rewrite Hint in Ho.
    split; [reflexivity|]. split; [intros H1; discriminate H1|].
    split; [intros _; exact Ho | reflexivity].
Qed.

(** X7, at an iteration that the operator did not interrupt and whose
    classifier failed. *)
Lemma iteration_sleeps_or_rolls_back_witness :
  (sleeps (trace (iteration example_monitor (world_with_revisions [])))
   + rollback_calls (trace (iteration example_monitor (world_with_revisions [])))
   = 1)%nat.
Proof.
  destruct (iteration_sleeps_or_rolls_back example_monitor
              (world_with_revisions []) eq_refl) as [H _].
  exact H.
Defined.

(** ** Sessions *)

Lemma while_loop_unfold self w rest :
  while_loop self (w :: rest) =
  match iteration self w with
  | (t, Ok Next) =>
      (t ++ trace (while_loop self rest), outcome (while_loop self rest))
  | (t, Ok Break) => (t, Ok tt)
  | (t, Raise e) => (t, Raise e)
  end.
Proof.
  simpl. destruct (iteration self w) as [t [[|]|e]]; simpl.
  - by destruct (while_loop self rest).
  - by rewrite app_nil_r.
  - reflexivity.
Qed.

Lemma while_loop_runs_every_tick self ticks :
  Forall (fun w => w_interrupt w = false /\ ~ classifier_triggers w) ticks ->
  sleeps (trace (while_loop self ticks)) = length ticks
  /\ rollback_calls (trace (while_loop self ticks)) = 0%nat
  /\ outcome (while_loop self ticks) = Ok tt.
Proof.
  induction 1 as [|w rest [Hint Hno] _ (IHs & IHr & IHo)]; [by repeat split|].
  rewrite while_loop_unfold.
  destruct (at_most_once_iteration self w) as [Hfree | [Htrig _]];
    [|contradiction].
  destruct (iteration_pace self w) as [(_ & Hr & _) | (Hs & Hr & Ho)];
    [unfold rollback_free in Hfree; congruence|].
  rewrite Hint in Ho.
  destruct (iteration self w) as [t r]. simpl in *. subst r. simpl.
  unfold sleeps in *.
  rewrite count_events_app, rollback_calls_app, Hs, Hr, IHs, IHr.
  by repeat split.
Qed.

(** X8.  A session in which the operator does not interrupt and no verdict
    asks for the rollback runs every iteration up to the deadline, one
    sleep each, whatever fails on the way (CloudWatch, the classifier, the
    webhook, a malformed verdict): it makes no rollback call, returns and
    ends with "Monitoring completed". *)
Theorem monitor_runs_every_tick
    (self : DeploymentMonitor) (d : Z) (ticks : list World)
    (Hticks : Forall (fun w => w_interrupt w = false /\ ~ classifier_triggers w)
                ticks) :
  sleeps (trace (monitor self d ticks)) = length ticks
  /\ rollback_calls (trace (monitor self d ticks)) = 0%nat
  /\ outcome (monitor self d ticks) = Ok tt
  /\ last (trace (monitor self d ticks)) = Some (EvPrint LogCompleted).
Proof.
  destruct (while_loop_runs_every_tick self ticks Hticks) as (Hs & Hr & Ho).
  unfold monitor.
  destruct (while_loop self ticks) as [t r]. simpl in *. subst r. simpl.
  unfold sleeps in *.
  change (EvPrint (LogStarting d) :: t ++ [EvPrint LogCompleted])
    with ([EvPrint (LogStarting d)] ++ t ++ [EvPrint LogCompleted]).
  rewrite !count_events_app, !rollback_calls_app, Hs, Hr.
  split; [unfold count_events; simpl; lia|].
  split; [reflexivity|]. split; [reflexivity|].
  by rewrite app_assoc, last_snoc.
Qed.

(** X8, on a session of three iterations: metrics unavailable, classifier
    down, again metrics unavailable. *)
Lemma monitor_runs_every_tick_witness :
  sleeps (trace (monitor slack_monitor 30
                   [cpu_failure_world; world_with_revisions []; cpu_failure_world]))
  = 3%nat.
Proof.
  apply (monitor_runs_every_tick slack_monitor 30
           [cpu_failure_world; world_with_revisions []; cpu_failure_world]).
  repeat constructor; intros (dct & Hai & _); discriminate Hai.
Defined.

Lemma while_loop_cut self before w rest :
  outcome (iteration self w) <> Ok Next ->
  while_loop self (before ++ w :: rest) = while_loop self (before ++ [w]).
Proof.
  intros Hstop. induction before as [|b before IH].
  - simpl app. rewrite !while_loop_unfold.
    destruct (iteration self w) as [t [[|]|e]]; simpl in *; congruence.
  - rewrite <- !app_comm_cons, !while_loop_unfold, IH. reflexivity.
Qed.

(** X9.  An operator interrupt ends the session in the iteration in which
    it arrives: that iteration does not go on to the next one, and no
    later iteration runs.  It leaves the loop by [break], or, when the
    interrupt arrives during the sleep of the error handler, by the
    uncaught [KeyboardInterrupt]. *)
Theorem interrupt_ends_session
    (self : DeploymentMonitor) (d : Z) (before : list World) (w : World)
    (rest : list World)
    (Hint : w_interrupt w = true) :
  (outcome (iteration self w) = Ok Break
   \/ outcome (iteration self w) = Raise KeyboardInterrupt)
  /\ monitor self d (before ++ w :: rest) = monitor self d (before ++ [w]).
Proof.
  assert (Hstop : outcome (iteration self w) = Ok Break
                  \/ outcome (iteration self w) = Raise KeyboardInterrupt).
  { destruct (iteration_pace self w) as [(_ & _ & Ho) | (_ & _ & Ho)].
    - by left.
    - by rewrite Hint in Ho. }
  split; [assumption|].
  unfold monitor. rewrite while_loop_cut; [reflexivity|].
  destruct Hstop as [Ho | Ho]; rewrite Ho; discriminate.
Qed.

(** X9, with an interrupt in the first of three iterations. *)
Lemma interrupt_ends_session_witness :
  monitor example_monitor 30
    ([] ++ interrupted_world :: [rollback_world; rollback_world])
  = monitor example_monitor 30 ([] ++ [interrupted_world]).
Proof.
  apply interrupt_ends_session. reflexivity.
Defined.

(** ** Iterations without metrics, and with them *)

Lemma get_current_metrics_reports_nothing w :
  count_events is_alert (trace (get_current_metrics w)) = 0%nat
  /\ classifier_calls (trace (get_current_metrics w)) = 0%nat.
Proof.
  unfold get_current_metrics.
  destruct (w_5xx_count w), (w_response_time w), (w_cpu w), (w_memory w);
    by split.
Qed.

(** X10.  When the metrics cannot be fetched, the iteration does nothing
    but sleep: no alert is dispatched, the classifier is not called, no
    rollback is made, and the loop goes on to its next iteration (unless
    the operator interrupts the sleep). *)
Theorem iteration_metrics_unavailable
    (self : DeploymentMonitor) (w : World)
    (Hnone : outcome (get_current_metrics w) = Ok None) :
  iteration self w =
    (trace (get_current_metrics w)
       ++ EvSleep :: (if w_interrupt w then [EvPrint LogStoppedByUser] else []),
     Ok (if w_interrupt w then Break else Next))
  /\ count_events is_alert (trace (iteration self w)) = 0%nat
  /\ classifier_calls (trace (iteration self w)) = 0%nat
  /\ rollback_calls (trace (iteration self w)) = 0%nat.
Proof.
  assert (Heq : iteration self w =
            (trace (get_current_metrics w)
               ++ EvSleep :: (if w_interrupt w then [EvPrint LogStoppedByUser] else []),
             Ok (if w_interrupt w then Break else Next))).
  { unfold iteration, loop_body, sleep.
    destruct (get_current_metrics w) as [t r]. simpl in Hnone. subst r.
    simpl. destruct (w_interrupt w); simpl; [|reflexivity].
    by rewrite <- app_assoc. }
  split; [exact Heq|]. rewrite Heq. simpl.
  destruct (get_current_metrics_reports_nothing w) as [Ha Hc].
  pose proof (rollback_free_get_current_metrics w) as Hr.
  unfold classifier_calls, rollback_free in *.
  rewrite !count_events_app, rollback_calls_app, Ha, Hc, Hr.
  destruct (w_interrupt w); by repeat split.
Qed.

(** X10, with CloudWatch failing at the third call. *)
Lemma iteration_metrics_unavailable_witness :
  iteration slack_monitor cpu_failure_world =
    ([EvCloudWatch "HTTPCode_Target_5XX_Count";
      EvCloudWatch "TargetResponseTime";
      EvCloudWatch "CPUUtilization";
      EvPrint (LogMetricsError (Failure "throttled"));
      EvSleep],
     Ok Next).
Proof.
  apply (iteration_metrics_unavailable slack_monitor cpu_failure_world).
  reflexivity.
Defined.

Lemma classifier_calls_no_evaluation t :
  Forall (fun ev => is_evaluation_event ev = false) t ->
  classifier_calls t = 0%nat.
Proof.
  induction 1 as [|ev t Hev _ IH]; [reflexivity|].
  unfold classifier_calls, count_events in *. simpl.
  destruct ev; simpl in *; try discriminate; assumption.
Qed.

Lemma silent_classifier_send_alert self w msg severity :
  silent is_classifier_call (send_alert self w msg severity).
Proof. apply classifier_calls_no_evaluation, send_alert_no_evaluation. Qed.

Lemma silent_classifier_rollback_step self w :
  silent is_classifier_call (rollback_step self w).
Proof.
  destruct (rollback_step_shape self w)
    as (rest & rolled_back & _ & Hrest & Hstep).
  unfold silent. rewrite Hstep. simpl.
  change (EvListTaskDefinitions :: rest ++ ?b)
    with ([EvListTaskDefinitions] ++ rest ++ b).
  rewrite !count_events_app.
  pose proof (silent_classifier_send_alert self w) as Hsend.
  unfold silent in Hsend. rewrite !Hsend.
  pose proof (classifier_calls_no_evaluation _ Hrest) as Hc.
  unfold classifier_calls in Hc. by rewrite Hc.
Qed.

Lemma silent_classifier_anomaly_block self w v :
  silent is_classifier_call (anomaly_block self w v).
Proof.
  unfold anomaly_block.
  do 4 (apply silent_bind; [by destruct v | intros ? _]).
  do 2 (apply silent_bind;
        [unfold py_join; by destruct (py_joinable _) | intros _ _]).
  apply silent_bind; [apply silent_classifier_send_alert | intros _ _].
  destruct (py_eq_str _ _ && py_truthy _);
    [apply silent_classifier_rollback_step | reflexivity].
Qed.

Lemma silent_classifier_after_detect self w anomaly_analysis :
  silent is_classifier_call
    (detected <- anomaly_detected anomaly_analysis ;;
     after <- match anomaly_analysis with
              | Some v => if detected then anomaly_block self w v else ret Next
              | None => ret Next
              end ;;
     match after with
     | Break => ret Break
     | Next => sleep w ;;; ret Next
     end).
Proof.
  apply silent_bind.
  { destruct anomaly_analysis as [v|]; [|reflexivity].
    unfold anomaly_detected. destruct (py_truthy v); [|reflexivity].
    by destruct v. }
  intros detected _. apply silent_bind.
  { destruct anomaly_analysis as [v|]; [|reflexivity].
    destruct detected; [apply silent_classifier_anomaly_block | reflexivity]. }
  intros [|] _; [|reflexivity].
  unfold sleep. by destruct (w_interrupt w).
Qed.

(** The trace of the loop body once the metrics are there. *)
Lemma loop_body_with_metrics self w m :
  outcome (get_current_metrics w) = Ok (Some m) ->
  exists p rest,
    trace (loop_body self w) =
      trace (get_current_metrics w)
        ++ status_line w m :: threshold_alert_trace self w m
        ++ EvOpenAI p :: rest
    /\ classifier_calls rest = 0%nat.
Proof.
  intros Hm. unfold loop_body. rewrite trace_bind, Hm.
  rewrite trace_bind. simpl outcome. cbv iota.
  rewrite trace_bind.
  assert (Hthr : outcome (match check_thresholds self m with
                          | [] => ret tt
                          | _ :: _ =>
                              send_alert self w
                                (MsgThreshold (check_thresholds self m))
                                (JStr "WARNING")
                          end) = Ok tt
                 /\ trace (match check_thresholds self m with
                           | [] => ret tt
                           | _ :: _ =>
                               send_alert self w
                                 (MsgThreshold (check_thresholds self m))
                                 (JStr "WARNING")
                           end) = threshold_alert_trace self w m).
  { unfold threshold_alert_trace.
    destruct (check_thresholds self m); [by split|].
    split; [by apply send_alert_returns | reflexivity]. }
  destruct Hthr as [Hthr_o Hthr_t]. rewrite Hthr_o, Hthr_t.
  rewrite trace_bind.
  destruct (detect_anomalies_call self w m) as (Hdo & Hdc & (p & Hhead)).
  rewrite Hdo.
  destruct (trace (detect_anomalies self (Some m) w)) as [|ev tl] eqn:Ht;
    [discriminate Hhead|].
  simpl in Hhead. injection Hhead as ->.
  eexists p, _. split; [reflexivity|].
  unfold classifier_calls in *. rewrite count_events_app.
  change (EvOpenAI p :: tl) with ([EvOpenAI p] ++ tl) in Hdc.
  rewrite count_events_app in Hdc.
  pose proof (silent_classifier_after_detect self w
                match w_openai w with
                | AiRaise _ => None
                | AiJson v => Some v
                end) as Hafter.
  unfold silent in Hafter. rewrite Hafter.
  change (count_events is_classifier_call [EvOpenAI p]) with 1%nat in Hdc.
  lia.
Qed.

Lemma iteration_trace_extends self w :
  exists extra,
    trace (iteration self w) = trace (loop_body self w) ++ extra
    /\ classifier_calls extra = 0%nat
    /\ rollback_calls extra = 0%nat.
Proof.
  rewrite iteration_unfold.
  destruct (loop_body self w) as [t [f|e]]; simpl.
  - exists []. by rewrite app_nil_r.
  - destruct e; eexists; (split; [reflexivity|]); by split.
Qed.

Lemma send_alert_one_alert self w msg severity :
  outcome (send_alert self w msg severity) = Ok tt ->
  count_events is_alert (trace (send_alert self w msg severity)) = 1%nat.
Proof.
  unfold send_alert.
  destruct (webhook_configured self); [|reflexivity].
  destruct (py_hashable severity); simpl; [|discriminate].
  by destruct (w_slack w msg).
Qed.

(** X11.  In an iteration whose metrics were fetched, the status line is
    printed, then the threshold alert is dispatched when some metric
    exceeds its ceiling (one alert, none otherwise), then the classifier is
    called, once in the iteration: the threshold alert goes out before the
    classifier answers and whatever it answers. *)
Theorem threshold_alert_precedes_classifier
    (self : DeploymentMonitor) (w : World) (m : Metrics)
    (Hm : outcome (get_current_metrics w) = Ok (Some m)) :
  (exists p rest,
     trace (iteration self w) =
       trace (get_current_metrics w)
         ++ status_line w m :: threshold_alert_trace self w m
         ++ EvOpenAI p :: rest)
  /\ classifier_calls (trace (iteration self w)) = 1%nat
  /\ count_events is_alert (threshold_alert_trace self w m) =
       (if bool_decide (check_thresholds self m = []) then 0 else 1)%nat.
Proof.
  destruct (loop_body_with_metrics self w m Hm) as (p & rest & Hbody & Hrest).
  destruct (iteration_trace_extends self w) as (extra & Hit & Hextra & _).
  destruct (get_current_metrics_reports_nothing w) as [_ Hg].
  split; [|split].
  - exists p, (rest ++ extra). rewrite Hit, Hbody.
    rewrite <- !app_assoc. simpl. by rewrite <- !app_assoc.
  - rewrite Hit, Hbody. unfold classifier_calls in *.
    change (status_line w m :: ?a ++ EvOpenAI p :: rest)
      with ([status_line w m] ++ a ++ [EvOpenAI p] ++ rest).
    rewrite !count_events_app, Hg, Hrest, Hextra.
    assert (Hthr : count_events is_classifier_call
                     (threshold_alert_trace self w m) = 0%nat).
    { unfold threshold_alert_trace.
      destruct (check_thresholds self m); [reflexivity|].
      apply silent_classifier_send_alert. }
    rewrite Hthr. reflexivity.
  - unfold threshold_alert_trace.
    destruct (check_thresholds self m) as [|a l]; [reflexivity|].
    rewrite bool_decide_eq_false_2 by discriminate.
    apply send_alert_one_alert. by apply send_alert_returns.
Qed.

(** X11, at an iteration whose CPU usage is over its ceiling and whose
    classifier is down. *)
Lemma threshold_alert_precedes_classifier_witness :
  classifier_calls (trace (iteration example_monitor (world_with_revisions [])))
  = 1%nat.
Proof.
  eapply (threshold_alert_precedes_classifier example_monitor
            (world_with_revisions [])).
  reflexivity.
Defined.

(** ** Malformed verdicts *)

Lemma rollback_free_iteration_of_body self w :
  rollback_free (loop_body self w) -> rollback_free (iteration self w).
Proof.
  unfold rollback_free. intros Hbody.
  destruct (iteration_trace_extends self w) as (extra & Hit & _ & Hextra).
  by rewrite Hit, rollback_calls_app, Hbody, Hextra.
Qed.

Lemma anomaly_block_unjoinable self w d :
  py_joinable (dict_get d "causes" (JArr [])) = false
  \/ py_joinable (dict_get d "recommendations" (JArr [])) = false ->
  anomaly_block self w (JObj d) = ([], Raise TypeError).
Proof.
  intros Hbad. unfold anomaly_block. cbn [py_get].
  rewrite !bind_ret_l. unfold py_join.
  destruct (py_joinable (dict_get d "causes" (JArr []))); [|reflexivity].
  rewrite bind_ret_l.
  destruct Hbad as [H | H]; [discriminate H|]. by rewrite H.
Qed.

(** X12.  A verdict whose ['causes'] or ['recommendations'] cannot be
    joined (null, a number, a boolean, or a list with an element that is
    not a string) makes the anomaly block raise [TypeError] before any
    alert: no anomaly alert is dispatched and no rollback is made, also
    when the verdict is critical and recommends the rollback.  The loop
    reports the error, sleeps and goes on. *)
Theorem unjoinable_verdict_never_rolls_back
    (self : DeploymentMonitor) (w : World) (d : gmap string json)
    (Hai : w_openai w = AiJson (JObj d))
    (Hbad : py_joinable (dict_get d "causes" (JArr [])) = false
            \/ py_joinable (dict_get d "recommendations" (JArr [])) = false) :
  anomaly_block self w (JObj d) = ([], Raise TypeError)
  /\ rollback_calls (trace (iteration self w)) = 0%nat
  /\ sleeps (trace (iteration self w)) = 1%nat
  /\ (w_interrupt w = false -> outcome (iteration self w) = Ok Next).
Proof.
  pose proof (anomaly_block_unjoinable self w d Hbad) as Hblock.
  assert (Hfree : rollback_free (iteration self w)).
  { apply rollback_free_iteration_of_body. unfold loop_body.
    apply rollback_free_bind; [apply rollback_free_get_current_metrics|].
    intros [metrics|] _.
    2: { apply rollback_free_bind; [apply rollback_free_sleep | reflexivity]. }
    apply rollback_free_bind; [reflexivity | intros _ _].
    apply rollback_free_bind.
    { destruct (check_thresholds self metrics);
        [reflexivity | apply rollback_free_send_alert]. }
    intros _ _.
    apply rollback_free_bind; [apply rollback_free_detect_anomalies|].
    intros anomaly_analysis Hda.
    apply rollback_free_bind; [apply rollback_free_anomaly_detected|].
    intros detected _.
    apply rollback_free_bind.
    - destruct anomaly_analysis as [v|]; [|reflexivity].
      destruct detected; [|reflexivity].
      apply detect_anomalies_Some in Hda. rewrite Hai in Hda.
      injection Hda as <-. by rewrite Hblock.
    - intros [|] _; [|reflexivity].
      apply rollback_free_bind; [apply rollback_free_sleep | reflexivity]. }
  unfold rollback_free in Hfree.
  split; [exact Hblock|]. split; [exact Hfree|].
  destruct (iteration_pace self w) as [(_ & Hr & _) | (Hs & _ & Ho)];
    [congruence|].
  split; [exact Hs|]. intros Hint. by rewrite Hint in Ho.
Qed.

(** X12, at a critical verdict that recommends the rollback and has [null]
    under ['causes']. *)
Lemma unjoinable_verdict_never_rolls_back_witness :
  rollback_calls
    (trace (iteration example_monitor
              (world_with_verdict (JObj verdict_with_null_causes)
                 ["task:7"; "task:6"]))) = 0%nat.
Proof.
  eapply (unjoinable_verdict_never_rolls_back example_monitor
            (world_with_verdict (JObj verdict_with_null_causes)
               ["task:7"; "task:6"]) verdict_with_null_causes).
  - reflexivity.
  - left. vm_compute. reflexivity.
Defined.

(** X13.  A verdict that is true in Python's sense but is not a JSON
    object (a list, a string, a number, [true]) has no [get] method: the
    body raises [AttributeError], which the loop catches.  The iteration
    prints the error, sleeps and goes on to the next one (unless the
    operator interrupts that sleep, whose [KeyboardInterrupt] is then not
    caught); it makes no rollback. *)
Theorem iteration_survives_malformed_verdict
    (self : DeploymentMonitor) (w : World) (m : Metrics) (v : json)
    (Hm : outcome (get_current_metrics w) = Ok (Some m))
    (Hai : w_openai w = AiJson v)
    (Htruthy : py_truthy v = true)
    (Hshape : is_JObj v = false) :
  iteration self w =
    (trace (loop_body self w) ++ [EvPrint (LogLoopError AttributeError); EvSleep],
     if w_interrupt w then Raise KeyboardInterrupt else Ok Next)
  /\ rollback_calls (trace (iteration self w)) = 0%nat.
Proof.
  assert (Hbody : outcome (loop_body self w) = Raise AttributeError).
  { unfold loop_body. rewrite outcome_bind_eq, Hm.
    rewrite outcome_bind_eq. simpl outcome at 1. cbv iota.
    rewrite outcome_bind_eq.
    assert (Hthr : outcome (match check_thresholds self m with
                            | [] => ret tt
                            | _ :: _ =>
                                send_alert self w
                                  (MsgThreshold (check_thresholds self m))
                                  (JStr "WARNING")
                            end) = Ok tt).
    { destruct (check_thresholds self m);
        [reflexivity | by apply send_alert_returns]. }
    rewrite Hthr, outcome_bind_eq.
    destruct (detect_anomalies_call self w m) as (Hdo & _). rewrite Hdo, Hai.
    rewrite outcome_bind_eq. unfold anomaly_detected. rewrite Htruthy.
    destruct v; try discriminate Hshape; reflexivity. }
  assert (Heq : iteration self w =
            (trace (loop_body self w)
               ++ [EvPrint (LogLoopError AttributeError); EvSleep],
             if w_interrupt w then Raise KeyboardInterrupt else Ok Next)).
  { rewrite iteration_unfold.
    destruct (loop_body self w) as [t r]. simpl in Hbody. by subst r. }
  split; [exact Heq|].
  destruct (at_most_once_iteration self w)
    as [Hfree | [(d & Hai' & _) _]]; [exact Hfree|].
  rewrite Hai in Hai'. injection Hai' as ->. discriminate Hshape.
Qed.

(** X13, at a verdict that is a list. *)
Lemma iteration_survives_malformed_verdict_witness :
  outcome (iteration example_monitor
             (world_with_verdict (JArr [JStr "anomaly"]) ["task:7"; "task:6"]))
  = Ok Next.
Proof.
  pose proof (iteration_survives_malformed_verdict example_monitor
                (world_with_verdict (JArr [JStr "anomaly"]) ["task:7"; "task:6"])
                {| m_error_rate := 1; m_avg_latency := 500; m_cpu_usage := 95;
                   m_memory_usage := 40; m_timestamp := "2024-01-01T00:00:00" |}
                (JArr [JStr "anomaly"])
                eq_refl eq_refl eq_refl eq_refl) as [H _].
  by rewrite H.
Defined.

(** ** The rollback is announced *)

(** X14.  In a session that invokes the rollback executor, the alert
    "CRITICAL ANOMALY DETECTED - Initiating automatic rollback" is
    dispatched right before the invocation: the platform is not touched
    before the operator has been told. *)
Theorem rollback_is_announced
    (self : DeploymentMonitor) (d : Z) (ticks : list World)
    (pre post : list event)
    (Hsplit : trace (monitor self d ticks) = pre ++ EvListTaskDefinitions :: post) :
  exists w earlier,
    w ∈ ticks
    /\ pre = earlier
               ++ trace (send_alert self w MsgInitiatingRollback (JStr "CRITICAL"))
    /\ count_events is_alert
         (trace (send_alert self w MsgInitiatingRollback (JStr "CRITICAL")))
       = 1%nat.
Proof.
  destruct (monitor_shape self d ticks)
    as [Hfree | (pre0 & w & Hin & _ & Heq & Hpre0)].
  { unfold rollback_free in Hfree.
    rewrite Hsplit, rollback_calls_app in Hfree.
    unfold rollback_calls in Hfree. simpl in Hfree. lia. }
  destruct (rollback_step_shape self w)
    as (rest & rolled_back & _ & Hrest & Hstep).
  rewrite Hstep in Heq. simpl in Heq.
  set (a := trace (send_alert self w MsgInitiatingRollback (JStr "CRITICAL")))
    in *.
  set (b := trace (send_alert self w (result_message rolled_back)
                     (result_severity rolled_back))) in *.
  assert (Ha : rollback_calls a = 0%nat) by apply rollback_free_send_alert.
  assert (Hpost : Forall (fun ev => is_evaluation_event ev = false)
                    (rest ++ b ++ [EvPrint LogCompleted])).
  { apply Forall_app. split; [assumption|].
    apply Forall_app. split; [apply send_alert_no_evaluation|].
    by repeat constructor. }
  assert (Htrace : trace (monitor self d ticks) =
            (pre0 ++ a) ++ EvListTaskDefinitions
              :: (rest ++ b ++ [EvPrint LogCompleted])).
  { rewrite Heq. simpl. rewrite <- !app_assoc. simpl.
    by rewrite <- !app_assoc. }
  rewrite Htrace in Hsplit. symmetry in Hsplit.
  apply split_at_rollback_call in Hsplit as [-> _];
    [| by rewrite rollback_calls_app, Hpre0, Ha
     | by apply rollback_calls_no_evaluation].
  exists w, pre0. split; [assumption|]. split; [reflexivity|].
  apply send_alert_one_alert. by apply send_alert_returns.
Qed.

(** X14, on the session of three iterations that rolls back in the
    first. *)
Lemma rollback_is_announced_witness :
  exists w earlier,
    w ∈ example_ticks
    /\ take 10 (trace (monitor example_monitor 30 example_ticks)) =
         earlier
           ++ trace (send_alert example_monitor w MsgInitiatingRollback
                       (JStr "CRITICAL"))
    /\ count_events is_alert
         (trace (send_alert example_monitor w MsgInitiatingRollback
                   (JStr "CRITICAL")))
       = 1%nat.
Proof.
  apply (rollback_is_announced example_monitor 30 example_ticks
           (take 10 (trace (monitor example_monitor 30 example_ticks)))
           (drop 11 (trace (monitor example_monitor 30 example_ticks)))).
  vm_compute. reflexivity.
Defined.

(** ** When the rollback does start *)





(** ** The threshold check at and around the ceilings *)

(** X16.  [check_thresholds] returns at most four alerts.  The comparison
    is strict: a metric at its ceiling, or below it, raises no alert.  The
    check is monotone: a snapshot in which no metric is lower raises at
    least as many alerts. *)
Theorem check_thresholds_boundary_and_monotone
    (self : DeploymentMonitor) (m : Metrics) :
  (length (check_thresholds self m) <= 4)%nat
  /\ (forall k,
        (observed m k <= ceiling (thresholds self) k)%Q ->
        alert_text m k ∉ check_thresholds self m)
  /\ (forall m',
        (forall k, (observed m k <= observed m' k)%Q) ->
        (length (check_thresholds self m)
         <= length (check_thresholds self m'))%nat).
Proof.
  split; [|split].
  - rewrite check_thresholds_filter, length_fmap.
    etransitivity; [apply List.filter_length_le | reflexivity].
  - intros k Hle Hin. apply elem_of_check_thresholds in Hin.
    apply (Qlt_not_le _ _ Hin Hle).
  - intros m' Hge.
    assert (Hmono : forall k, exceeds self m k = true ->
                              exceeds self m' k = true).
    { intros k Hk. apply exceeds_true. apply exceeds_true in Hk.
      exact (Qlt_le_trans _ _ _ Hk (Hge k)). }
    rewrite !check_thresholds_filter, !length_fmap.
    unfold check_order. simpl.
    pose proof (Hmono ErrorRate) as H1. pose proof (Hmono CpuUsage) as H2.
    pose proof (Hmono MemoryUsage) as H3. pose proof (Hmono AvgLatency) as H4.
    destruct (exceeds self m ErrorRate), (exceeds self m CpuUsage),
      (exceeds self m MemoryUsage), (exceeds self m AvgLatency);
      rewrite ?H1, ?H2, ?H3, ?H4 by reflexivity; simpl;
      repeat match goal with
             | |- context [if ?b then _ else _] => destruct b
             end; simpl; lia.
Qed.

(** X16, at a snapshot whose CPU usage is exactly at its ceiling of 80. *)
Lemma check_thresholds_boundary_and_monotone_witness :
  "High CPU usage: 80.0%" ∉
    check_thresholds example_monitor
      {| m_error_rate := 1; m_avg_latency := 500; m_cpu_usage := 80;
         m_memory_usage := 40; m_timestamp := "" |}.
Proof.
  destruct (check_thresholds_boundary_and_monotone example_monitor
      {| m_error_rate := 1; m_avg_latency := 500; m_cpu_usage := 80;
         m_memory_usage := 40; m_timestamp := "" |}) as (_ & H & _).
  apply (H CpuUsage). simpl. discriminate.
Defined.
